(** * Wire payment unusual-transaction report: the load/join/filter pipeline

    A shallow embedding of [Wire_Transfer_GUI.py].  The script reads three
    SWIFT transaction files and one KYC limit file with pandas, concatenates
    the transaction files, corrects the limit column, left-joins the limits
    with the transactions on ['Customer ID'], keeps the rows whose outgoing
    amount exceeds the limit and shows them in a Streamlit dashboard.

    Data frames are modelled as lists of rows, a row being a record of the
    columns the script names.  Numeric cells are rationals, an empty cell
    (pandas' NaN) is [None], customer identifiers are compared as the values
    [pd.read_csv] made of them.

    The first part gives the tables of [load_data] as functions of the four
    files.  The second part is the script itself, statement by statement, in
    a monad with the Python objects (a table lives at an address, so that an
    assignment in place and two names for one table can be told apart), the
    exception that may be raised and the widgets drawn so far. *)

From Stdlib Require Import QArith Lqa Ascii.
From stdpp Require Import base option list sorting gmap strings.

Local Open Scope Q_scope.

(** ** Data model *)

(** A cell of the ['Date of Transaction'] column: text as [pd.read_csv]
    leaves it, a timestamp once [pd.to_datetime] has run, or empty. *)
Inductive DateCell :=
  | DateNull
  | DateText (s : string)
  | Timestamp (ns : Z).

(** A row of a SWIFT file. *)
Record TransactionRecord := mkTransaction {
  tx_customer_id : string;            (* 'Customer ID' *)
  tx_customer_name : option string;   (* 'Customer Name' *)
  date_of_transaction : DateCell;     (* 'Date of Transaction' *)
  amount : option Q;                  (* 'Outgoing Wire Transfer Amount' *)
  tx_other : list (string * string)   (* remaining columns, carried along *)
}.

(** A row of the KYC file. *)
Record CustomerLimitRecord := mkLimit {
  customer_id : string;               (* 'Customer ID' *)
  customer_name : option string;      (* 'Customer Name' *)
  limit : option Q;                   (* 'Wire Transfer Limit' *)
  kyc_other : list (string * string)  (* remaining columns, carried along *)
}.

(** A row of [merge_tables]: the columns of the KYC row, then those of the
    matching transaction, all empty when there is none. *)
Record JoinedRecord := mkJoined {
  kyc : CustomerLimitRecord;
  tx : option TransactionRecord
}.

Abbreviation DataFrame := (list JoinedRecord).

(** Column access on the joined table. *)
Definition wire_transfer_limit (r : JoinedRecord) : option Q :=
  limit (kyc r).

Definition outgoing_wire_transfer_amount (r : JoinedRecord) : option Q :=
  tx r ≫= amount.

(** ['Customer Name'] is a column of both files, so the merge names the
    transaction side ['Customer Name_y']. *)
Definition customer_name_y (r : JoinedRecord) : option string :=
  tx r ≫= tx_customer_name.

Definition date_col (r : JoinedRecord) : DateCell :=
  match tx r with
  | Some t => date_of_transaction t
  | None => DateNull
  end.

(** ** load_data *)

(** [pd.concat([a, b], ignore_index=True)] *)
Definition concat {A} (frames : list (list A)) : list A :=
  mjoin frames.

Definition SENTINEL : Q := 500.
Definition UPLIFT : Q := 5000000.

(** [np.where(col == 500, col + 5000000.00, col)], cell by cell.  A NaN is
    not equal to 500 and is left as it is. *)
Definition correct_limit (l : option Q) : option Q :=
  match l with
  | Some q => if Qeq_bool q SENTINEL then Some (q + UPLIFT) else Some q
  | None => None
  end.

Definition correct_record (k : CustomerLimitRecord) : CustomerLimitRecord :=
  {| customer_id := customer_id k;
     customer_name := customer_name k;
     limit := correct_limit (limit k);
     kyc_other := kyc_other k |}.

(** The transactions with the ['Customer ID'] of a limit record, in the order
    of the transaction table. *)
Definition matching (k : CustomerLimitRecord) (txs : list TransactionRecord)
  : list TransactionRecord :=
  filter (λ t, tx_customer_id t = customer_id k) txs.

(** The rows [pd.merge(..., how='left')] makes of one left row: one per
    matching transaction, or a single row with the transaction columns
    empty. *)
Definition merge_row (txs : list TransactionRecord) (k : CustomerLimitRecord)
  : list JoinedRecord :=
  match matching k txs with
  | [] => [ {| kyc := k; tx := None |} ]
  | ms => (λ t, {| kyc := k; tx := Some t |}) <$> ms
  end.

(** [pd.merge(left, right, on='Customer ID', how='left')] *)
Definition merge_left (left : list CustomerLimitRecord)
    (right : list TransactionRecord) : DataFrame :=
  left ≫= merge_row right.

(** One entry of the mask [amount > limit]; a comparison with NaN is
    False. *)
Definition exceeds_limit (r : JoinedRecord) : bool :=
  match outgoing_wire_transfer_amount r, wire_transfer_limit r with
  | Some a, Some l => negb (Qle_bool a l)
  | _, _ => false
  end.

(** [merge_tables[mask]] *)
Definition flag (merge_tables : DataFrame) : DataFrame :=
  filter (λ r, exceeds_limit r) merge_tables.

(** The flagged rows of one limit record. *)
Definition flagged_of (right : list TransactionRecord)
    (k : CustomerLimitRecord) : DataFrame :=
  flag ((λ t, {| kyc := k; tx := Some t |}) <$> matching k right).

(** The tables of [load_data], as functions of the four files. *)
Definition SWIFT_MERGE_2 (SWIFT SWIFT_2 SWIFT_3 : list TransactionRecord)
  : list TransactionRecord :=
  concat [concat [SWIFT; SWIFT_2]; SWIFT_3].

Definition WT_KYC_2 (WT_KYC : list CustomerLimitRecord)
  : list CustomerLimitRecord :=
  correct_record <$> WT_KYC.

Definition merge_tables (SWIFT SWIFT_2 SWIFT_3 : list TransactionRecord)
    (WT_KYC : list CustomerLimitRecord) : DataFrame :=
  merge_left (WT_KYC_2 WT_KYC) (SWIFT_MERGE_2 SWIFT SWIFT_2 SWIFT_3).

Definition unusual_wp_increase (SWIFT SWIFT_2 SWIFT_3 : list TransactionRecord)
    (WT_KYC : list CustomerLimitRecord) : DataFrame :=
  flag (merge_tables SWIFT SWIFT_2 SWIFT_3 WT_KYC).

(** ** The script: objects, exceptions and the page *)

Inductive Exception :=
  | FileNotFoundError (msg : string)
  | ParserError (msg : string)
  | KeyError (msg : string)
  | TypeError (msg : string)
  | ValueError (msg : string).

(** [str(e)], as the f-string of the handler prints it. *)
Definition str (e : Exception) : string :=
  match e with
  | FileNotFoundError msg | ParserError msg | KeyError msg
  | TypeError msg | ValueError msg => msg
  end.

(** The pandas calls whose outcome the files decide.  [read_swift] and
    [read_kyc] stand for [pd.read_csv] on a transaction and on a limit file:
    they give the rows, or the exception with which pandas answers the file.
    That is the one [pd.read_csv] raises when the file is missing or
    malformed; a file that lacks a column the script names, or holds text in
    a numeric column, has no rows of the record types above, and the
    [KeyError] or [TypeError] pandas raises for it further down in
    [load_data] is taken as the outcome of reading it.  [to_datetime] is
    [pd.to_datetime] on a column. *)
Record Pandas := mkPandas {
  read_swift : string → Exception + list TransactionRecord;
  read_kyc : string → Exception + list CustomerLimitRecord;
  to_datetime : list DateCell → Exception + list DateCell
}.

(** Python objects: every table lives at an address, a variable holds the
    address. *)
Inductive Table :=
  | Transactions (rows : list TransactionRecord)
  | Limits (rows : list CustomerLimitRecord)
  | Joined (rows : DataFrame).

Definition loc := nat.

(** The figures handed to [st.pyplot]: what is plotted and the title.  The
    labels of the pie chart carry the percentage before it is formatted;
    sizes, colours and the value labels of the bars are left out. *)
Inductive Figure :=
  | BarChart (title : string) (categories : list string) (values : list Q)
  | PieChart (title : string) (sizes : list Q)
      (labels : list (string * option Q)).

(** What a Streamlit call puts on the page.  [DescribeTable df] is
    [st.dataframe(df.describe())]: it carries the table it summarises, the
    statistics themselves are not computed. *)
Inductive Widget :=
  | SetPageConfig (page_title layout : string)
  | Markdown (body : string)
  | Header (text : string)
  | Subheader (text : string)
  | Selectbox (label : string) (options : list string) (help : string)
  | Tabs (names : list string)
  | Pyplot (fig : Figure)
  | Metric (label : string) (value : nat)
  | DescribeTable (frame : DataFrame)
  | StError (msg : string)
  | StWarning (msg : string)
  | StInfo (msg : string).

Inductive Container := Page | Sidebar | Col1 | Col2 | Tab1 | Tab2 | Tab3.

Record State := mkState {
  heap : gmap loc Table;
  next : loc;
  screen : list (Container * Widget)
}.

Definition initial : State :=
  {| heap := ∅; next := 0%nat; screen := [] |}.

Inductive Outcome (A : Type) :=
  | Done (a : A)
  | Raised (e : Exception)
  | Stopped.
Arguments Done {A} a.
Arguments Raised {A} e.
Arguments Stopped {A}.

Definition Script (A : Type) : Type := State → State * Outcome A.

Global Instance Script_ret : MRet Script := λ A a s, (s, Done a).

Global Instance Script_bind : MBind Script := λ A B f m s,
  match m s with
  | (s', Done a) => f a s'
  | (s', Raised e) => (s', Raised e)
  | (s', Stopped) => (s', Stopped)
  end.

(** [try: body except Exception as e: handler e] *)
Definition try_except {A} (body : Script A) (handler : Exception → Script A)
  : Script A := λ s,
  match body s with
  | (s', Raised e) => handler e s'
  | r => r
  end.

Definition raise {A} (e : Exception) : Script A := λ s, (s, Raised e).

Definition call {A} (r : Exception + A) : Script A :=
  match r with
  | inl e => raise e
  | inr a => mret a
  end.

(** [st.stop()] *)
Definition st_stop {A} : Script A := λ s, (s, Stopped).

(** A Streamlit call that draws [w] in container [c]. *)
Definition st (c : Container) (w : Widget) : Script unit := λ s,
  ({| heap := heap s; next := next s; screen := screen s ++ [(c, w)] |},
   Done tt).

(** A new object. *)
Definition alloc (t : Table) : Script loc := λ s,
  ({| heap := <[next s := t]> (heap s); next := S (next s);
      screen := screen s |},
   Done (next s)).

(** An update in place of the object at [l]. *)
Definition store (l : loc) (t : Table) : Script unit := λ s,
  ({| heap := <[l := t]> (heap s); next := next s; screen := screen s |},
   Done tt).

Definition deref (l : loc) : Script (option Table) := λ s,
  (s, Done (heap s !! l)).

Definition transactions_at (l : loc) : Script (list TransactionRecord) :=
  t ← deref l;
  mret (match t with Some (Transactions rows) => rows | _ => [] end).

Definition limits_at (l : loc) : Script (list CustomerLimitRecord) :=
  t ← deref l;
  mret (match t with Some (Limits rows) => rows | _ => [] end).

Definition joined_at (l : loc) : Script DataFrame :=
  t ← deref l;
  mret (match t with Some (Joined rows) => rows | _ => [] end).

(** *** Column helpers *)

(** [col.sum()]: NaN cells are skipped, the empty sum is 0. *)
Definition col_sum (col : JoinedRecord → option Q) (df : DataFrame) : Q :=
  foldr (λ r acc, match col r with Some q => q + acc | None => acc end) 0 df.

(** [col.dropna()] *)
Definition dropna {A} (col : list (option A)) : list A := omap id col.

(** [col.unique()]: first occurrences, in order. *)
Definition unique (col : list string) : list string :=
  foldl (λ seen x, if decide (x ∈ seen) then seen else seen ++ [x]) [] col.

(** [sorted(names)]: strings in lexicographic order. *)
Definition sorted (names : list string) : list string :=
  merge_sort (λ a b, String.leb a b) names.

(** The mask [df['Customer Name_y'] == name]; a NaN equals no name. *)
Definition named (name : string) (r : JoinedRecord) : Prop :=
  customer_name_y r = Some name.

Global Instance named_dec name r : Decision (named name r).
Proof. unfold named. apply _. Defined.

(** [df['Date of Transaction'] = dates], row by row. *)
Definition set_date (r : JoinedRecord) (d : DateCell) : JoinedRecord :=
  match tx r with
  | Some t =>
      {| kyc := kyc r;
         tx := Some {| tx_customer_id := tx_customer_id t;
                       tx_customer_name := tx_customer_name t;
                       date_of_transaction := d;
                       amount := amount t;
                       tx_other := tx_other t |} |}
  | None => r
  end.

(** The quotient of a percentage label; numpy gives inf or nan, not an
    exception, when the divisor is 0: [None]. *)
Definition percent (part total : Q) : option Q :=
  if Qeq_bool total 0 then None else Some (part / total * 100).

(** Line 73: the entries of the drop-down. *)
Definition customer_names (df : DataFrame) : list string :=
  "All" :: sorted (unique (dropna (customer_name_y <$> df))).

(** What [st.selectbox] returns when the user has picked entry [choice]. *)
Definition selected (choice : nat) (options : list string) : string :=
  default (hd "" options) (options !! choice).

(** The texts of the page. *)
Definition PAGE_HEADING : string :=
  "<h1 style='text-align: center;'>Wire Payment Unusual Transaction Report</h1>".
Definition PAGE_STYLE : string :=
  "
    <style>
    .stApp {
        background-color: #f0f0f0;
    }
    </style>
    ".
Definition SELECT_HELP : string := "Select a customer to filter the data".
Definition NEWLINE : string := String (ascii_of_nat 10) "".
Definition HISTOGRAM_NEEDS_CUSTOMER : string :=
  "Please select a specific customer from the dropdown to view the histogram.".
Definition PIE_NEEDS_CUSTOMER : string :=
  "Please select a specific customer from the dropdown to view the pie chart.".
Definition NO_DATA : string :=
  "No data available for the selected customer and date range.".
Definition COUNT_NEEDS_CUSTOMER : string :=
  "Select a customer from the dropdown to see their appearance count.".
Definition SIDEBAR_NOTE : string :=
  "This dashboard displays unusual wire payment transactions where outgoing transfer amounts exceed customer wire transfer limits.".

(** The two figures. *)
Definition bar_chart (selected_customer : string) (filtered_data : DataFrame)
  : Figure :=
  let total_limit := col_sum wire_transfer_limit filtered_data in
  let total_transfer := col_sum outgoing_wire_transfer_amount filtered_data in
  BarChart ("Wire Transfer Comparison for " +:+ selected_customer)
    ["Wire Transfer Limit"; "Outgoing Wire Amount"]
    [total_limit; total_transfer].

Definition pie_chart (selected_customer : string)
    (unusual_wp_increase filtered_data : DataFrame) : Figure :=
  let filtered_total := col_sum outgoing_wire_transfer_amount filtered_data in
  let overall_total :=
    col_sum outgoing_wire_transfer_amount unusual_wp_increase in
  let remaining_total := overall_total - filtered_total in
  PieChart
    ("Outgoing Wire Transfer Distribution" +:+ NEWLINE +:+ selected_customer
       +:+ " vs All Customers")
    [filtered_total; remaining_total]
    [("Selected", percent filtered_total overall_total);
     ("Remaining", percent remaining_total overall_total)].

(** *** The script *)

Section Script.
Variable pandas : Pandas.
(** The entry of the drop-down the user has picked (the first one,
    ["All"], when nothing is picked). *)
Variable choice : nat.

Definition pd_read_csv_swift (path : string) : Script loc :=
  rows ← call (read_swift pandas path);
  alloc (Transactions rows).

Definition pd_read_csv_kyc (path : string) : Script loc :=
  rows ← call (read_kyc pandas path);
  alloc (Limits rows).

(** [pd.concat([a, b], ignore_index=True)] on transaction tables. *)
Definition pd_concat (a b : loc) : Script loc :=
  rows_a ← transactions_at a;
  rows_b ← transactions_at b;
  alloc (Transactions (concat [rows_a; rows_b])).

(** [df[mask]]: a new table with the rows the mask keeps. *)
Definition boolean_index (df : loc) (mask : JoinedRecord → Prop)
    `{∀ r, Decision (mask r)} : Script loc :=
  rows ← joined_at df;
  alloc (Joined (filter mask rows)).

(** [df.copy()] *)
Definition copy (df : loc) : Script loc :=
  t ← deref df;
  alloc (default (Joined []) t).

(** One run of the body of [load_data]; [st.cache_data] hands back an equal
    table on later runs. *)
Definition load_data : Script loc :=
  SWIFT ← pd_read_csv_swift "SWIFT_csv_20250924_a62566.txt";
  SWIFT_2 ← pd_read_csv_swift "SWIFT_csv_2.txt";
  SWIFT_3 ← pd_read_csv_swift "SWIFT_csv_3.txt";
  SWIFT_MERGE_1 ← pd_concat SWIFT SWIFT_2;
  SWIFT_MERGE_2 ← pd_concat SWIFT_MERGE_1 SWIFT_3;
  WT_KYC ← pd_read_csv_kyc "Wire Transfer KYC.txt";
  WT_KYC_2 ← copy WT_KYC;
  limits ← limits_at WT_KYC_2;
  store WT_KYC_2 (Limits (correct_record <$> limits));;
  left ← limits_at WT_KYC_2;
  right ← transactions_at SWIFT_MERGE_2;
  merge_tables ← alloc (Joined (merge_left left right));
  masked ← boolean_index merge_tables (λ r, exceeds_limit r);
  unusual_wp_increase ← copy masked;
  mret unusual_wp_increase.

(** Line 57: the date column of the flagged table is replaced, in place,
    by what [pd.to_datetime] makes of it. *)
Definition convert_dates (unusual_wp_increase : loc) : Script unit :=
  df ← joined_at unusual_wp_increase;
  dates ← call (to_datetime pandas (date_col <$> df));
  if decide (length dates = length df)
  then store unusual_wp_increase (Joined (zip_with set_date df dates))
  else raise (ValueError "Length of values does not match length of index").

(** The body of the [try] of lines 53 to 57. *)
Definition loading : Script loc :=
  unusual_wp_increase ← load_data;
  convert_dates unusual_wp_increase;;
  mret unusual_wp_increase.

Definition load_the_dataset : Script loc :=
  try_except loading
    (λ e,
     st Page (StError ("Error loading data: " +:+ str e));;
     st_stop).

Definition st_selectbox (c : Container) (label : string)
    (options : list string) (help : string) : Script string :=
  st c (Selectbox label options help);;
  mret (selected choice options).

(** Lines 83 to 88. *)
Definition filter_data (unusual_wp_increase : loc)
    (selected_customer : string) : Script loc :=
  if decide (selected_customer ≠ "All")
  then boolean_index unusual_wp_increase (named selected_customer)
  else mret unusual_wp_increase.

Definition tab1 (selected_customer : string) (filtered_data : loc)
  : Script unit :=
  st Tab1 (Header "Wire Transfer Limits vs Actual Transfers");;
  rows ← joined_at filtered_data;
  if decide (rows ≠ [] ∧ selected_customer ≠ "All") then
    st Tab1 (Pyplot (bar_chart selected_customer rows))
  else if decide (selected_customer = "All") then
    st Tab1 (StError HISTOGRAM_NEEDS_CUSTOMER)
  else
    st Tab1 (StWarning NO_DATA).

Definition tab2 (selected_customer : string)
    (unusual_wp_increase filtered_data : loc) : Script unit :=
  st Tab2 (Header "Outgoing Wire Transfer Distribution");;
  rows ← joined_at filtered_data;
  if decide (rows ≠ [] ∧ selected_customer ≠ "All") then
    all_rows ← joined_at unusual_wp_increase;
    st Tab2 (Pyplot (pie_chart selected_customer all_rows rows))
  else if decide (selected_customer = "All") then
    st Tab2 (StError PIE_NEEDS_CUSTOMER)
  else
    st Tab2 (StWarning NO_DATA).

Definition tab3 (selected_customer : string) (unusual_wp_increase : loc)
  : Script unit :=
  st Tab3 (Header "Customer Appearance Statistics");;
  (if decide (selected_customer ≠ "All") then
     of_customer ←
       boolean_index unusual_wp_increase (named selected_customer);
     rows ← joined_at of_customer;
     let customer_count := length rows in
     st Tab3 (Metric
       ("Number of times " +:+ selected_customer
          +:+ " appears in unusual transactions")
       customer_count)
   else
     st Tab3 (StInfo COUNT_NEEDS_CUSTOMER));;
  st Tab3 (Subheader "Descriptive Statistics of Unusual Transactions");;
  all_rows ← joined_at unusual_wp_increase;
  st Tab3 (DescribeTable all_rows).

(** Lines 63 to 177. *)
Definition dashboard (unusual_wp_increase : loc) : Script unit :=
  st Page (Markdown PAGE_HEADING);;
  st Col1 (Header "Filters");;
  all_rows ← joined_at unusual_wp_increase;
  selected_customer ←
    st_selectbox Col1 "Customer Name" (customer_names all_rows) SELECT_HELP;
  filtered_data ← filter_data unusual_wp_increase selected_customer;
  st Col2 (Tabs ["Histogram"; "Pie Chart"; "Customer Statistics"]);;
  tab1 selected_customer filtered_data;;
  tab2 selected_customer unusual_wp_increase filtered_data;;
  tab3 selected_customer unusual_wp_increase;;
  st Sidebar (Markdown "---");;
  st Sidebar (StInfo SIDEBAR_NOTE).

(** Lines 9 to 18. *)
Definition page_setup : Script unit :=
  st Page (SetPageConfig "Wire Payment Dashboard" "wide");;
  st Page (Markdown PAGE_STYLE).

Definition main : Script unit :=
  page_setup;;
  unusual_wp_increase ← load_the_dataset;
  dashboard unusual_wp_increase.

End Script.

(** *** The loaded tables after [load_data]

    The property of the specification, that nothing is mutated after the
    load: every object that exists when [load_data] returns is the same when
    the script ends. *)
Definition unchanged_since_load_data (pandas : Pandas) (choice : nat)
    (s : State) : Prop :=
  ∀ s1 u,
    load_data pandas (page_setup s).1 = (s1, Done u) →
    ∀ l, (l < next s1)%nat → heap (main pandas choice s).1 !! l = heap s1 !! l.

(** The property that a view is a fresh derivation: [filtered_data] is an
    object other than the flagged table. *)
Definition fresh_view (unusual_wp_increase : loc) (selected_customer : string)
    (s : State) : Prop :=
  (filter_data unusual_wp_increase selected_customer s).2
  ≠ Done unusual_wp_increase.

(** *** What loading comes to *)

(** The four [pd.read_csv] calls in the order of the script: the first
    exception raised, or the four tables. *)
Definition read_files (pandas : Pandas)
  : Exception + (list TransactionRecord * list TransactionRecord
                 * list TransactionRecord * list CustomerLimitRecord) :=
  match read_swift pandas "SWIFT_csv_20250924_a62566.txt" with
  | inl e => inl e
  | inr SWIFT =>
  match read_swift pandas "SWIFT_csv_2.txt" with
  | inl e => inl e
  | inr SWIFT_2 =>
  match read_swift pandas "SWIFT_csv_3.txt" with
  | inl e => inl e
  | inr SWIFT_3 =>
  match read_kyc pandas "Wire Transfer KYC.txt" with
  | inl e => inl e
  | inr WT_KYC => inr (SWIFT, SWIFT_2, SWIFT_3, WT_KYC)
  end end end end.

(** [df['Date of Transaction'] = pd.to_datetime(df['Date of Transaction'])]
    on the rows of the flagged table. *)
Definition with_dates (pandas : Pandas) (df : DataFrame)
  : Exception + DataFrame :=
  match to_datetime pandas (date_col <$> df) with
  | inl e => inl e
  | inr dates =>
      if decide (length dates = length df)
      then inr (zip_with set_date df dates)
      else inl (ValueError "Length of values does not match length of index")
  end.

(** The outcome of the [try] block as a function of the pandas calls alone:
    the first exception raised, or the flagged table with its dates
    converted. *)
Definition load_result (pandas : Pandas) : Exception + DataFrame :=
  match read_files pandas with
  | inl e => inl e
  | inr (SWIFT, SWIFT_2, SWIFT_3, WT_KYC) =>
      with_dates pandas (unusual_wp_increase SWIFT SWIFT_2 SWIFT_3 WT_KYC)
  end.

(** *** What the dashboard comes to

    The widgets of lines 63 to 177 as a function of the flagged table and of
    the entry picked in the drop-down. *)

(** The rows of [filtered_data]. *)
Definition filtered (selected_customer : string) (all_rows : DataFrame)
  : DataFrame :=
  if decide (selected_customer ≠ "All")
  then filter (named selected_customer) all_rows
  else all_rows.

Definition tab1_page (selected_customer : string) (rows : DataFrame)
  : list (Container * Widget) :=
  [ (Tab1, Header "Wire Transfer Limits vs Actual Transfers");
    (Tab1,
     if decide (rows ≠ [] ∧ selected_customer ≠ "All")
     then Pyplot (bar_chart selected_customer rows)
     else if decide (selected_customer = "All")
          then StError HISTOGRAM_NEEDS_CUSTOMER
          else StWarning NO_DATA) ].

Definition tab2_page (selected_customer : string) (all_rows rows : DataFrame)
  : list (Container * Widget) :=
  [ (Tab2, Header "Outgoing Wire Transfer Distribution");
    (Tab2,
     if decide (rows ≠ [] ∧ selected_customer ≠ "All")
     then Pyplot (pie_chart selected_customer all_rows rows)
     else if decide (selected_customer = "All")
          then StError PIE_NEEDS_CUSTOMER
          else StWarning NO_DATA) ].

Definition tab3_page (selected_customer : string) (all_rows : DataFrame)
  : list (Container * Widget) :=
  [ (Tab3, Header "Customer Appearance Statistics");
    (Tab3,
     if decide (selected_customer ≠ "All")
     then Metric
            ("Number of times " +:+ selected_customer
               +:+ " appears in unusual transactions")
            (length (filter (named selected_customer) all_rows))
     else StInfo COUNT_NEEDS_CUSTOMER);
    (Tab3, Subheader "Descriptive Statistics of Unusual Transactions");
    (Tab3, DescribeTable all_rows) ].

Definition page (choice : nat) (all_rows : DataFrame)
  : list (Container * Widget) :=
  let selected_customer := selected choice (customer_names all_rows) in
  let rows := filtered selected_customer all_rows in
  [ (Page, Markdown PAGE_HEADING);
    (Col1, Header "Filters");
    (Col1, Selectbox "Customer Name" (customer_names all_rows) SELECT_HELP);
    (Col2, Tabs ["Histogram"; "Pie Chart"; "Customer Statistics"]) ]
  ++ tab1_page selected_customer rows
  ++ tab2_page selected_customer all_rows rows
  ++ tab3_page selected_customer all_rows
  ++ [ (Sidebar, Markdown "---"); (Sidebar, StInfo SIDEBAR_NOTE) ].

Definition page_setup_widgets : list (Container * Widget) :=
  [ (Page, SetPageConfig "Wire Payment Dashboard" "wide");
    (Page, Markdown PAGE_STYLE) ].

(** *** States of the run *)

(** The state after [alloc t], after [store l t] and after drawing [ws]. *)
Definition allocated (t : Table) (s : State) : State :=
  {| heap := <[next s := t]> (heap s); next := S (next s);
     screen := screen s |}.

Definition stored (l : loc) (t : Table) (s : State) : State :=
  {| heap := <[l := t]> (heap s); next := next s; screen := screen s |}.

Definition drawn (ws : list (Container * Widget)) (s : State) : State :=
  {| heap := heap s; next := next s; screen := screen s ++ ws |}.

(** [s'] has every object of [s], unchanged, and possibly new ones. *)
Definition extends (s s' : State) : Prop :=
  (next s ≤ next s')%nat
  ∧ ∀ l, (l < next s)%nat → heap s' !! l = heap s !! l.

(** A piece of script that writes to no object that exists when it
    starts. *)
Definition read_only {A} (m : Script A) : Prop :=
  ∀ s, extends s (m s).1.

(** ** A file set for the examples

    An instance of [Pandas]: four small files, and a [to_datetime] that
    reads the ISO dates [YYYY-MM-DD] (text of another form raises here). *)
Module Sample.

Definition digit (c : ascii) : option Z :=
  let n := Z.of_nat (Ascii.nat_of_ascii c) in
  if decide (48 ≤ n ≤ 57)%Z then Some (n - 48)%Z else None.

Definition is_leap (y : Z) : bool :=
  bool_decide (y mod 4 = 0 ∧ (y mod 100 ≠ 0 ∨ y mod 400 = 0))%Z.

Definition days_in_month (y m : Z) : Z :=
  (if decide (m = 2) then (if is_leap y then 29 else 28)
   else if decide (m = 4 ∨ m = 6 ∨ m = 9 ∨ m = 11) then 30 else 31)%Z.

(** Days from 1970-01-01 to the given day of the Gregorian calendar. *)
Definition days_from_civil (y m d : Z) : Z :=
  (let y' := if decide (m ≤ 2) then y - 1 else y in
   let era := y' `div` 400 in
   let yoe := y' - era * 400 in
   let mp := (m + 9) `mod` 12 in
   let doy := (153 * mp + 2) `div` 5 + d - 1 in
   let doe := yoe * 365 + yoe `div` 4 - yoe `div` 100 + doy in
   era * 146097 + doe - 719468)%Z.

Definition parse_iso_date (s : string) : option Z :=
  match String.list_ascii_of_string s with
  | [y1; y2; y3; y4; "-"%char; m1; m2; "-"%char; d1; d2] =>
      a ← digit y1; b ← digit y2; c ← digit y3; d ← digit y4;
      e ← digit m1; f ← digit m2; g ← digit d1; h ← digit d2;
      let y := (a * 1000 + b * 100 + c * 10 + d)%Z in
      let m := (e * 10 + f)%Z in
      let dd := (g * 10 + h)%Z in
      if decide (1 ≤ m ≤ 12 ∧ 1 ≤ dd ≤ days_in_month y m)%Z
      then Some (days_from_civil y m dd * 86400 * 1000000000)%Z
      else None
  | _ => None
  end.

Definition convert (c : DateCell) : Exception + DateCell :=
  match c with
  | DateText s =>
      match parse_iso_date s with
      | Some ns => inr (Timestamp ns)
      | None => inl (ValueError ("Unknown datetime string format, unable to parse: " +:+ s))
      end
  | c => inr c
  end.

Fixpoint iso_to_datetime (col : list DateCell) : Exception + list DateCell :=
  match col with
  | [] => inr []
  | c :: col =>
      match convert c, iso_to_datetime col with
      | inl e, _ => inl e
      | inr _, inl e => inl e
      | inr d, inr ds => inr (d :: ds)
      end
  end.

Definition transfer (id name date : string) (a : Q) : TransactionRecord :=
  {| tx_customer_id := id; tx_customer_name := Some name;
     date_of_transaction := DateText date; amount := Some a;
     tx_other := [] |}.

Definition customer (id name : string) (l : Q) : CustomerLimitRecord :=
  {| customer_id := id; customer_name := Some name; limit := Some l;
     kyc_other := [] |}.

Definition SWIFT : list TransactionRecord :=
  [ transfer "C1" "Acme" "2025-01-15" 6000000;
    transfer "C2" "Bolt" "2025-01-16" 10000 ].

Definition SWIFT_2 : list TransactionRecord :=
  [ transfer "C1" "Acme" "2025-01-17" 5000000;
    transfer "C9" "Zeta" "2025-01-17" 99 ].

Definition SWIFT_3 : list TransactionRecord :=
  [ transfer "C2" "Bolt" "2025-01-18" 10000.01 ].

Definition WT_KYC : list CustomerLimitRecord :=
  [ customer "C1" "Acme" 500;
    customer "C2" "Bolt" 10000;
    customer "C3" "Crux" 100 ].

Definition files : gmap string (list TransactionRecord) :=
  {[ "SWIFT_csv_20250924_a62566.txt" := SWIFT;
     "SWIFT_csv_2.txt" := SWIFT_2;
     "SWIFT_csv_3.txt" := SWIFT_3 ]}.

Definition open {A} (dir : gmap string A) (path : string) : Exception + A :=
  match dir !! path with
  | Some rows => inr rows
  | None =>
      inl (FileNotFoundError ("[Errno 2] No such file or directory: '" +:+ path +:+ "'"))
  end.

Definition pandas : Pandas :=
  {| read_swift := open files;
     read_kyc := open {[ "Wire Transfer KYC.txt" := WT_KYC ]};
     to_datetime := iso_to_datetime |}.

(** The same without the second SWIFT file. *)
Definition pandas_missing_file : Pandas :=
  {| read_swift := open (delete "SWIFT_csv_2.txt" files);
     read_kyc := open {[ "Wire Transfer KYC.txt" := WT_KYC ]};
     to_datetime := iso_to_datetime |}.

(** The joined table of the example, row by row. *)
Definition joined : DataFrame := merge_tables SWIFT SWIFT_2 SWIFT_3 WT_KYC.

Definition acme_6000000 : JoinedRecord :=
  {| kyc := customer "C1" "Acme" 5000500;
     tx := Some (transfer "C1" "Acme" "2025-01-15" 6000000) |}.

Definition acme_5000000 : JoinedRecord :=
  {| kyc := customer "C1" "Acme" 5000500;
     tx := Some (transfer "C1" "Acme" "2025-01-17" 5000000) |}.

Definition bolt_at_limit : JoinedRecord :=
  {| kyc := customer "C2" "Bolt" 10000;
     tx := Some (transfer "C2" "Bolt" "2025-01-16" 10000) |}.

Definition bolt_above_limit : JoinedRecord :=
  {| kyc := customer "C2" "Bolt" 10000;
     tx := Some (transfer "C2" "Bolt" "2025-01-18" 10000.01) |}.

Definition crux_alone : JoinedRecord :=
  {| kyc := customer "C3" "Crux" 100; tx := None |}.

(** The flagged table as [load_data] returns it, and once line 57 has
    run. *)
Definition flagged : DataFrame := [acme_6000000; bolt_above_limit].

Definition flagged_with_dates : DataFrame :=
  [ set_date acme_6000000 (Timestamp 1736899200000000000);
    set_date bolt_above_limit (Timestamp 1737158400000000000) ].

Definition SWIFT_2_MISSING : Exception :=
  FileNotFoundError "[Errno 2] No such file or directory: 'SWIFT_csv_2.txt'".

(** The first file with a date that is no date in a flagged row. *)
Definition pandas_bad_date : Pandas :=
  {| read_swift :=
       open (<[ "SWIFT_csv_20250924_a62566.txt" :=
                  [ transfer "C1" "Acme" "yesterday" 6000000 ] ]> files);
     read_kyc := open {[ "Wire Transfer KYC.txt" := WT_KYC ]};
     to_datetime := iso_to_datetime |}.

(** The files with limits that no transfer exceeds. *)
Definition WT_KYC_HIGH : list CustomerLimitRecord :=
  [ customer "C1" "Acme" 10000000; customer "C2" "Bolt" 10000000 ].

Definition pandas_quiet : Pandas :=
  {| read_swift := open files;
     read_kyc := open {[ "Wire Transfer KYC.txt" := WT_KYC_HIGH ]};
     to_datetime := iso_to_datetime |}.

End Sample.

(** * Properties *)

(** ** The threshold filter *)

Lemma exceeds_limit_spec (r : JoinedRecord) :
  exceeds_limit r ↔
  ∃ a l, outgoing_wire_transfer_amount r = Some a
         ∧ wire_transfer_limit r = Some l ∧ l < a.
Proof.
  unfold exceeds_limit.
  destruct (outgoing_wire_transfer_amount r) as [a|],
           (wire_transfer_limit r) as [l|]; simpl.
  - rewrite negb_True, Is_true_true, Qle_bool_iff. split.
    + intros Hle. exists a, l. split_and!; try done. by apply Qnot_le_lt.
    + intros (a' & l' & Ha & Hl & Hlt). simplify_eq. by apply Qlt_not_le.
  - split; [done | intros (? & ? & _ & [=] & _)].
  - split; [done | intros (? & ? & [=] & _)].
  - split; [done | intros (? & ? & [=] & _)].
Qed.


(** ** The limit correction *)

Lemma correct_limit_sentinel (q : Q) :
  q == 500 → correct_limit (Some q) = Some (q + 5000000).
Proof.
  intros Hq. unfold correct_limit, SENTINEL, UPLIFT.
  apply Qeq_bool_iff in Hq. by rewrite Hq.
Qed.

Lemma correct_limit_other (q : Q) :
  ¬ q == 500 → correct_limit (Some q) = Some q.
Proof.
  intros Hq. unfold correct_limit, SENTINEL.
  destruct (Qeq_bool q 500) eqn:E; [| done].
  by apply Qeq_bool_iff in E.
Qed.

Lemma corrected_is_not_sentinel (q : Q) : q == 500 → ¬ q + 5000000 == 500.
Proof. intros ->. done. Qed.

Lemma correct_limit_twice (l : option Q) :
  correct_limit (correct_limit l) = correct_limit l.
Proof.
  destruct l as [q|]; [| done].
  destruct (Qeq_dec q 500) as [Hq | Hq].
  - rewrite (correct_limit_sentinel q Hq).
    apply correct_limit_other. by apply corrected_is_not_sentinel.
  - by rewrite !(correct_limit_other q Hq).
Qed.

Lemma correct_record_twice (k : CustomerLimitRecord) :
  correct_record (correct_record k) = correct_record k.
Proof. unfold correct_record. simpl. by rewrite correct_limit_twice. Qed.

(** C3. Correcting a limit twice gives what correcting it once gives, for a
    cell and so for the whole limit table. *)
Theorem correction_idempotence :
  (∀ l : option Q, correct_limit (correct_limit l) = correct_limit l)
  ∧ (∀ WT_KYC, WT_KYC_2 (WT_KYC_2 WT_KYC) = WT_KYC_2 WT_KYC).
Proof.
  split; [apply correct_limit_twice |].
  intros K. unfold WT_KYC_2. rewrite <-list_fmap_compose.
  apply list_fmap_ext. intros _ k _. apply correct_record_twice.
Qed.

(** ** The tables of the pipeline, row by row *)

Lemma SWIFT_MERGE_2_app (SWIFT SWIFT_2 SWIFT_3 : list TransactionRecord) :
  SWIFT_MERGE_2 SWIFT SWIFT_2 SWIFT_3 = SWIFT ++ SWIFT_2 ++ SWIFT_3.
Proof.
  unfold SWIFT_MERGE_2, concat. simpl. by rewrite !app_nil_r, <-app_assoc.
Qed.

Lemma elem_of_matching k txs t :
  t ∈ matching k txs ↔ tx_customer_id t = customer_id k ∧ t ∈ txs.
Proof. unfold matching. by rewrite list_elem_of_filter. Qed.

Lemma merge_row_unmatched txs k :
  matching k txs = [] → merge_row txs k = [ {| kyc := k; tx := None |} ].
Proof. unfold merge_row. by intros ->. Qed.

Lemma merge_row_matched txs k :
  matching k txs ≠ [] →
  merge_row txs k = (λ t, {| kyc := k; tx := Some t |}) <$> matching k txs.
Proof. unfold merge_row. by destruct (matching k txs). Qed.

Lemma elem_of_merge_row txs k r :
  r ∈ merge_row txs k ↔
  (matching k txs = [] ∧ r = {| kyc := k; tx := None |})
  ∨ (∃ t, t ∈ txs ∧ tx_customer_id t = customer_id k
          ∧ r = {| kyc := k; tx := Some t |}).
Proof.
  destruct (decide (matching k txs = [])) as [E | E].
  - rewrite (merge_row_unmatched _ _ E), list_elem_of_singleton. split.
    + intros ->. by left.
    + intros [[_ ->] | (t & Ht & Hid & _)]; [done |].
      assert (t ∈ matching k txs) as Hm by by apply elem_of_matching.
      rewrite E in Hm. by apply elem_of_nil in Hm.
  - rewrite (merge_row_matched _ _ E), list_elem_of_fmap. split.
    + intros (t & -> & Ht). apply elem_of_matching in Ht as [Hid Ht].
      right. by exists t.
    + intros [[E' _] | (t & Ht & Hid & ->)]; [done |].
      exists t. split; [done |]. by apply elem_of_matching.
Qed.

Lemma elem_of_merge_left left right r :
  r ∈ merge_left left right ↔ ∃ k, k ∈ left ∧ r ∈ merge_row right k.
Proof.
  unfold merge_left. rewrite list_elem_of_bind.
  split; intros (k & ? & ?); by exists k.
Qed.



(** ** Concatenation *)

(** C5. The three batches are put one after the other, batch 1 then 2 then
    3, each in its own order and with nothing removed: the length is the sum
    of the lengths and the row at each position is the one this order
    gives. *)
Theorem concatenation_order (SWIFT SWIFT_2 SWIFT_3 : list TransactionRecord) :
  SWIFT_MERGE_2 SWIFT SWIFT_2 SWIFT_3 = SWIFT ++ SWIFT_2 ++ SWIFT_3
  ∧ length (SWIFT_MERGE_2 SWIFT SWIFT_2 SWIFT_3)
    = (length SWIFT + length SWIFT_2 + length SWIFT_3)%nat
  ∧ ∀ i : nat,
      SWIFT_MERGE_2 SWIFT SWIFT_2 SWIFT_3 !! i =
        if decide (i < length SWIFT)%nat then SWIFT !! i
        else if decide (i < length SWIFT + length SWIFT_2)%nat
             then SWIFT_2 !! (i - length SWIFT)%nat
             else SWIFT_3 !! (i - length SWIFT - length SWIFT_2)%nat.
Proof.
  rewrite SWIFT_MERGE_2_app. split_and!.
  - done.
  - rewrite !length_app. lia.
  - intros i. destruct (decide (i < length SWIFT)%nat) as [H1 | H1].
    + by rewrite lookup_app_l.
    + rewrite lookup_app_r by lia.
      destruct (decide (i < length SWIFT + length SWIFT_2)%nat) as [H2 | H2].
      * rewrite lookup_app_l by lia. done.
      * rewrite lookup_app_r by lia. done.
Qed.

(** ** The left join *)

Lemma filter_none {A} (P : A → Prop) `{∀ x, Decision (P x)} (l : list A) :
  (∀ x, x ∈ l → ¬ P x) → filter P l = [].
Proof.
  induction l as [| x l IH]; intros Hl; [done |].
  rewrite filter_cons_False by (apply Hl; left).
  apply IH. intros y Hy. apply Hl. by right.
Qed.

Lemma filter_all {A} (P : A → Prop) `{∀ x, Decision (P x)} (l : list A) :
  (∀ x, x ∈ l → P x) → filter P l = l.
Proof.
  induction l as [| x l IH]; intros Hl; [done |].
  rewrite filter_cons_True by (apply Hl; left).
  f_equal. apply IH. intros y Hy. apply Hl. by right.
Qed.

Lemma merge_left_cons k left right :
  merge_left (k :: left) right = merge_row right k ++ merge_left left right.
Proof. done. Qed.

Lemma kyc_merge_row txs k r : r ∈ merge_row txs k → kyc r = k.
Proof.
  rewrite elem_of_merge_row.
  by intros [[_ ->] | (t & _ & _ & ->)].
Qed.

Lemma length_merge_row txs k :
  length (merge_row txs k) = (1 `max` length (matching k txs))%nat.
Proof.
  unfold merge_row. destruct (matching k txs) as [| t ms]; [done |].
  rewrite length_fmap. simpl. lia.
Qed.

Lemma length_merge_left left right :
  length (merge_left left right) =
  sum_list ((λ k, 1 `max` length (matching k right))%nat <$> left).
Proof.
  induction left as [| k left IH]; [done |].
  rewrite merge_left_cons, length_app, length_merge_row, IH. done.
Qed.

Lemma merge_left_preserves_left left right :
  (length left ≤ length (merge_left left right))%nat.
Proof.
  rewrite length_merge_left.
  induction left as [| k left IH]; [done |].
  rewrite fmap_cons. cbn [sum_list sum_list_with length]. unfold id in *. lia.
Qed.

Lemma filter_other_customer left right id :
  (∀ k, k ∈ left → customer_id k ≠ id) →
  filter (λ r, customer_id (kyc r) = id) (merge_left left right) = [].
Proof.
  intros Hne. apply filter_none. intros r Hr.
  apply elem_of_merge_left in Hr as (k & Hk & Hr).
  apply kyc_merge_row in Hr as ->. by apply Hne.
Qed.

Lemma filter_own_customer right k :
  filter (λ r, customer_id (kyc r) = customer_id k) (merge_row right k)
  = merge_row right k.
Proof.
  apply filter_all. intros r Hr. by rewrite (kyc_merge_row _ _ _ Hr).
Qed.

Lemma rows_of_customer left right k :
  k ∈ left → NoDup (customer_id <$> left) →
  filter (λ r, customer_id (kyc r) = customer_id k) (merge_left left right)
  = merge_row right k.
Proof.
  induction left as [| k' left IH]; intros Hk Hnd.
  { by apply elem_of_nil in Hk. }
  rewrite fmap_cons in Hnd. apply NoDup_cons in Hnd as [Hk' Hnd].
  rewrite merge_left_cons, filter_app.
  apply elem_of_cons in Hk as [<- | Hk].
  - rewrite filter_own_customer, filter_other_customer, app_nil_r; [done |].
    intros k'' Hk'' Heq. apply Hk'. rewrite <-Heq.
    by apply list_elem_of_fmap_2.
  - rewrite IH by done.
    assert (customer_id k' ≠ customer_id k) as Hne.
    { intros Heq. apply Hk'. rewrite Heq. by apply list_elem_of_fmap_2. }
    rewrite (filter_none _ (merge_row right k')); [done |].
    intros r Hr. by rewrite (kyc_merge_row _ _ _ Hr).
Qed.

Lemma merge_left_drops_unmatched left right t :
  (∀ k, k ∈ left → customer_id k ≠ tx_customer_id t) →
  ∀ r, r ∈ merge_left left right → tx r ≠ Some t.
Proof.
  intros Hne r Hr Htx.
  apply elem_of_merge_left in Hr as (k & Hk & Hr).
  apply elem_of_merge_row in Hr as [[_ ->] | (t' & _ & Hid & ->)];
    simpl in Htx; [done |].
  simplify_eq. by apply (Hne k).
Qed.

(** C4. The join keeps the limit table: the joined table has at least as
    many rows as the limit table, every limit record is in it, with empty
    transaction columns when no transaction matches, and with one row per
    matching transaction otherwise, each row carrying the limit record; a
    transaction whose customer identifier is in no limit record is in no
    row. *)
Theorem left_join_cardinality
    (left : list CustomerLimitRecord) (right : list TransactionRecord) :
  let joined := merge_left left right in
  (length left ≤ length joined)%nat
  ∧ length joined
    = sum_list ((λ k, 1 `max` length (matching k right))%nat <$> left)
  ∧ (∀ k, k ∈ left →
       (∃ r, r ∈ joined ∧ kyc r = k)
       ∧ (matching k right = [] → {| kyc := k; tx := None |} ∈ joined)
       ∧ (NoDup (customer_id <$> left) →
            let rows :=
              filter (λ r, customer_id (kyc r) = customer_id k) joined in
            (∀ r, r ∈ rows → kyc r = k)
            ∧ (matching k right = [] → rows = [ {| kyc := k; tx := None |} ])
            ∧ (matching k right ≠ [] →
                 rows = (λ t, {| kyc := k; tx := Some t |}) <$> matching k right
                 ∧ length rows = length (matching k right))))
  ∧ (∀ t, t ∈ right →
       (∀ k, k ∈ left → customer_id k ≠ tx_customer_id t) →
       ∀ r, r ∈ joined → tx r ≠ Some t).
Proof.
  intros joined. subst joined. split_and!.
  - apply merge_left_preserves_left.
  - apply length_merge_left.
  - intros k Hk. split_and!.
    + destruct (merge_row right k) as [| r rows] eqn:E.
      { pose proof (length_merge_row right k) as Hlen.
        rewrite E in Hlen. simpl in Hlen. lia. }
      assert (r ∈ merge_row right k) as Hr by (rewrite E; left).
      exists r. split; [| by apply kyc_merge_row in Hr].
      apply elem_of_merge_left. by exists k.
    + intros E. apply elem_of_merge_left. exists k. split; [done |].
      rewrite (merge_row_unmatched _ _ E). left.
    + intros Hnd rows. subst rows. rewrite (rows_of_customer _ _ _ Hk Hnd).
      split_and!.
      * intros r. apply kyc_merge_row.
      * apply merge_row_unmatched.
      * intros E. rewrite (merge_row_matched _ _ E).
        by rewrite length_fmap.
  - intros t _. apply merge_left_drops_unmatched.
Qed.

(** ** Concatenating before or after flagging *)

Lemma flag_merge_row right k : flag (merge_row right k) = flagged_of right k.
Proof.
  unfold flagged_of, merge_row. by destruct (matching k right).
Qed.

Lemma flagged_of_app right1 right2 k :
  flagged_of (right1 ++ right2) k = flagged_of right1 k ++ flagged_of right2 k.
Proof.
  unfold flagged_of, flag, matching. by rewrite filter_app, fmap_app, filter_app.
Qed.

Lemma flag_merge_left left right :
  flag (merge_left left right) = left ≫= flagged_of right.
Proof.
  induction left as [| k left IH]; [done |].
  rewrite merge_left_cons, bind_cons, <-IH, <-flag_merge_row.
  unfold flag. by rewrite filter_app.
Qed.

Lemma bind_app_Permutation {A B} (f g : A → list B) (l : list A) :
  l ≫= (λ x, f x ++ g x) ≡ₚ (l ≫= f) ++ (l ≫= g).
Proof.
  induction l as [| x l IH]; [done |].
  rewrite !bind_cons, IH. solve_Permutation.
Qed.

(** The pipeline on one batch alone. *)
Lemma single_batch (SWIFT : list TransactionRecord)
    (WT_KYC : list CustomerLimitRecord) :
  unusual_wp_increase SWIFT [] [] WT_KYC
  = flag (merge_left (WT_KYC_2 WT_KYC) SWIFT).
Proof.
  unfold unusual_wp_increase, merge_tables.
  by rewrite SWIFT_MERGE_2_app, !app_nil_r.
Qed.

(** C6. Flagging the concatenation of the three batches gives, up to the
    order of the rows, the flagged rows of batch 1, of batch 2 and of batch
    3, each joined on its own with the same limit table. *)
Theorem flagging_distributes_over_batches
    (SWIFT SWIFT_2 SWIFT_3 : list TransactionRecord)
    (WT_KYC : list CustomerLimitRecord) :
  unusual_wp_increase SWIFT SWIFT_2 SWIFT_3 WT_KYC ≡ₚ
    flag (merge_left (WT_KYC_2 WT_KYC) SWIFT)
    ++ flag (merge_left (WT_KYC_2 WT_KYC) SWIFT_2)
    ++ flag (merge_left (WT_KYC_2 WT_KYC) SWIFT_3).
Proof.
  unfold unusual_wp_increase, merge_tables.
  rewrite SWIFT_MERGE_2_app, !flag_merge_left.
  rewrite (list_bind_ext (flagged_of (SWIFT ++ SWIFT_2 ++ SWIFT_3))
             (λ k, flagged_of SWIFT k
                   ++ (flagged_of SWIFT_2 k ++ flagged_of SWIFT_3 k))
             (WT_KYC_2 WT_KYC) (WT_KYC_2 WT_KYC)); [| | done].
  - by rewrite !bind_app_Permutation.
  - intros k. by rewrite !flagged_of_app.
Qed.

(** ** Running the script, step by step *)

Lemma bind_done {A B} (m : Script A) (f : A → Script B) s s1 a :
  m s = (s1, Done a) → (m ≫= f) s = f a s1.
Proof. intros H. unfold mbind, Script_bind. by rewrite H. Qed.

Lemma bind_raised {A B} (m : Script A) (f : A → Script B) s s1 e :
  m s = (s1, Raised e) → (m ≫= f) s = (s1, Raised e).
Proof. intros H. unfold mbind, Script_bind. by rewrite H. Qed.

Lemma alloc_run t s : alloc t s = (allocated t s, Done (next s)).
Proof. done. Qed.

Lemma store_run l t s : store l t s = (stored l t s, Done tt).
Proof. done. Qed.

Lemma st_run c w s : st c w s = (drawn [(c, w)] s, Done tt).
Proof. done. Qed.

Lemma drawn_drawn ws1 ws2 s : drawn ws2 (drawn ws1 s) = drawn (ws1 ++ ws2) s.
Proof. unfold drawn. simpl. by rewrite <-app_assoc. Qed.

Lemma lookup_allocated t s : heap (allocated t s) !! next s = Some t.
Proof. apply lookup_insert_eq. Qed.

Lemma lookup_allocated_ne t s l :
  l ≠ next s → heap (allocated t s) !! l = heap s !! l.
Proof. intros. by apply lookup_insert_ne. Qed.

Lemma transactions_at_run l s rows :
  heap s !! l = Some (Transactions rows) →
  transactions_at l s = (s, Done rows).
Proof.
  intros H. unfold transactions_at, deref, mbind, Script_bind, mret, Script_ret.
  by rewrite H.
Qed.

Lemma limits_at_run l s rows :
  heap s !! l = Some (Limits rows) → limits_at l s = (s, Done rows).
Proof.
  intros H. unfold limits_at, deref, mbind, Script_bind, mret, Script_ret.
  by rewrite H.
Qed.

Lemma joined_at_run l s rows :
  heap s !! l = Some (Joined rows) → joined_at l s = (s, Done rows).
Proof.
  intros H. unfold joined_at, deref, mbind, Script_bind, mret, Script_ret.
  by rewrite H.
Qed.

Lemma copy_run l s t :
  heap s !! l = Some t → copy l s = (allocated t s, Done (next s)).
Proof.
  intros H. unfold copy, deref, mbind, Script_bind, mret, Script_ret.
  by rewrite H.
Qed.

Lemma boolean_index_run l s rows (mask : JoinedRecord → Prop)
    `{∀ r, Decision (mask r)} :
  heap s !! l = Some (Joined rows) →
  boolean_index l mask s
  = (allocated (Joined (filter mask rows)) s, Done (next s)).
Proof.
  intros Hl. unfold boolean_index.
  by rewrite (bind_done _ _ _ _ _ (joined_at_run _ _ _ Hl)).
Qed.

Lemma pd_concat_run a b s rows_a rows_b :
  heap s !! a = Some (Transactions rows_a) →
  heap s !! b = Some (Transactions rows_b) →
  pd_concat a b s
  = (allocated (Transactions (concat [rows_a; rows_b])) s, Done (next s)).
Proof.
  intros Ha Hb. unfold pd_concat.
  rewrite (bind_done _ _ _ _ _ (transactions_at_run _ _ _ Ha)).
  by rewrite (bind_done _ _ _ _ _ (transactions_at_run _ _ _ Hb)).
Qed.

Ltac heap_lookup :=
  cbn [heap stored drawn];
  repeat first
    [ rewrite lookup_allocated
    | rewrite lookup_insert_eq
    | rewrite lookup_allocated_ne by (cbn; lia)
    | rewrite lookup_insert_ne by (cbn; lia) ];
  try reflexivity.

Ltac run_with lem := erewrite bind_done by (apply lem; heap_lookup; done).

Lemma extends_refl s : extends s s.
Proof. by split. Qed.

Lemma extends_trans s1 s2 s3 : extends s1 s2 → extends s2 s3 → extends s1 s3.
Proof.
  intros [Hn1 Hh1] [Hn2 Hh2]. split; [lia |].
  intros l Hl. rewrite Hh2 by lia. by apply Hh1.
Qed.

Lemma extends_allocated t s : extends s (allocated t s).
Proof.
  split; [cbn; lia |]. intros l Hl. apply lookup_allocated_ne. lia.
Qed.

Lemma extends_drawn ws s : extends s (drawn ws s).
Proof. by split. Qed.

Section Running.
Variable pandas : Pandas.

Lemma pd_read_csv_swift_run path s rows :
  read_swift pandas path = inr rows →
  pd_read_csv_swift pandas path s
  = (allocated (Transactions rows) s, Done (next s)).
Proof.
  intros H. unfold pd_read_csv_swift, call, mbind, Script_bind.
  by rewrite H.
Qed.

Lemma pd_read_csv_swift_fails path s e :
  read_swift pandas path = inl e →
  pd_read_csv_swift pandas path s = (s, Raised e).
Proof.
  intros H. unfold pd_read_csv_swift, call, mbind, Script_bind.
  by rewrite H.
Qed.

Lemma pd_read_csv_kyc_run path s rows :
  read_kyc pandas path = inr rows →
  pd_read_csv_kyc pandas path s = (allocated (Limits rows) s, Done (next s)).
Proof.
  intros H. unfold pd_read_csv_kyc, call, mbind, Script_bind. by rewrite H.
Qed.

Lemma pd_read_csv_kyc_fails path s e :
  read_kyc pandas path = inl e →
  pd_read_csv_kyc pandas path s = (s, Raised e).
Proof.
  intros H. unfold pd_read_csv_kyc, call, mbind, Script_bind. by rewrite H.
Qed.

(** [load_data] on four readable files: ten objects are made, the last
    one is the flagged table. *)
Lemma load_data_run s SWIFT SWIFT_2 SWIFT_3 WT_KYC :
  read_files pandas = inr (SWIFT, SWIFT_2, SWIFT_3, WT_KYC) →
  ∃ s', load_data pandas s = (s', Done (next s + 9)%nat)
        ∧ next s' = (next s + 10)%nat
        ∧ screen s' = screen s
        ∧ heap s' !! (next s + 9)%nat
          = Some (Joined (unusual_wp_increase SWIFT SWIFT_2 SWIFT_3 WT_KYC))
        ∧ extends s s'.
Proof.
  unfold read_files.
  destruct (read_swift pandas "SWIFT_csv_20250924_a62566.txt")
    as [| S1] eqn:H1; [done |].
  destruct (read_swift pandas "SWIFT_csv_2.txt") as [| S2] eqn:H2; [done |].
  destruct (read_swift pandas "SWIFT_csv_3.txt") as [| S3] eqn:H3; [done |].
  destruct (read_kyc pandas "Wire Transfer KYC.txt") as [| K] eqn:H4;
    [done |].
  intros [= <- <- <- <-]. unfold load_data.
  run_with pd_read_csv_swift_run.
  run_with pd_read_csv_swift_run.
  run_with pd_read_csv_swift_run.
  run_with pd_concat_run.
  run_with pd_concat_run.
  run_with pd_read_csv_kyc_run.
  run_with copy_run.
  run_with limits_at_run.
  run_with store_run.
  run_with limits_at_run.
  run_with transactions_at_run.
  run_with alloc_run.
  run_with boolean_index_run.
  run_with copy_run.
  eexists. split_and!.
  - unfold mret, Script_ret. do 2 f_equal. cbn. lia.
  - cbn. lia.
  - done.
  - cbn [heap allocated next stored].
    replace (next s + 9)%nat
      with (S (S (S (S (S (S (S (S (S (next s)))))))))) by lia.
    by rewrite lookup_insert_eq.
  - split; [cbn; lia |]. intros l Hl. cbn [heap allocated next stored].
    by repeat rewrite lookup_insert_ne by lia.
Qed.

Lemma load_data_fails s e :
  read_files pandas = inl e →
  ∃ s', load_data pandas s = (s', Raised e)
        ∧ screen s' = screen s ∧ extends s s'.
Proof.
  unfold read_files, load_data.
  destruct (read_swift pandas "SWIFT_csv_20250924_a62566.txt")
    as [e1 | S1] eqn:H1.
  { intros [= <-]. exists s.
    erewrite bind_raised by (by apply pd_read_csv_swift_fails).
    split_and!; [done | done | apply extends_refl]. }
  run_with pd_read_csv_swift_run.
  destruct (read_swift pandas "SWIFT_csv_2.txt") as [e2 | S2] eqn:H2.
  { intros [= <-]. eexists.
    erewrite bind_raised by (by apply pd_read_csv_swift_fails).
    split_and!; [done | done | apply extends_allocated]. }
  run_with pd_read_csv_swift_run.
  destruct (read_swift pandas "SWIFT_csv_3.txt") as [e3 | S3] eqn:H3.
  { intros [= <-]. eexists.
    erewrite bind_raised by (by apply pd_read_csv_swift_fails).
    split_and!; [done | done |].
    eapply extends_trans; apply extends_allocated. }
  run_with pd_read_csv_swift_run.
  run_with pd_concat_run.
  run_with pd_concat_run.
  destruct (read_kyc pandas "Wire Transfer KYC.txt") as [e4 | K] eqn:H4;
    [| done].
  intros [= <-]. eexists.
  erewrite bind_raised by (by apply pd_read_csv_kyc_fails).
  split_and!; [done | done |].
  do 4 (eapply extends_trans; [apply extends_allocated |]).
  apply extends_allocated.
Qed.
End Running.

Section Loading.
Variable pandas : Pandas.

Lemma convert_dates_run u s df :
  heap s !! u = Some (Joined df) →
  convert_dates pandas u s =
    match with_dates pandas df with
    | inl e => (s, Raised e)
    | inr df' => (stored u (Joined df') s, Done tt)
    end.
Proof.
  intros Hu. unfold convert_dates, with_dates.
  run_with joined_at_run.
  unfold call, mbind, Script_bind.
  destruct (to_datetime pandas (date_col <$> df)) as [e | dates]; [done |].
  cbn. by destruct (decide (length dates = length df)).
Qed.

(** The [try] block raises exactly when [load_result] is an exception,
    and otherwise returns the address of the table [load_result] gives.
    It draws nothing and leaves the objects it finds as they are. *)
Lemma loading_run s :
  ∃ s', screen s' = screen s ∧ extends s s'
        ∧ match load_result pandas with
          | inl e => loading pandas s = (s', Raised e)
          | inr df =>
              ∃ u, loading pandas s = (s', Done u)
                   ∧ heap s' !! u = Some (Joined df)
                   ∧ (u < next s')%nat
          end.
Proof.
  unfold load_result, loading.
  destruct (read_files pandas) as [e | [[[S1 S2] S3] K]] eqn:Hread.
  { destruct (load_data_fails pandas s e Hread) as (s' & Hrun & Hscr & Hext).
    exists s'. split_and!; [done | done |].
    by erewrite bind_raised. }
  destruct (load_data_run pandas s S1 S2 S3 K Hread)
    as (s1 & Hrun & Hnext & Hscr & Hu & Hext).
  destruct (with_dates pandas (unusual_wp_increase S1 S2 S3 K))
    as [e | df'] eqn:Hdates.
  { exists s1. split_and!; [done | done |].
    erewrite bind_done by done.
    erewrite bind_raised; [done |].
    by rewrite (convert_dates_run _ _ _ Hu), Hdates. }
  exists (stored (next s + 9)%nat (Joined df') s1). split_and!.
  - done.
  - destruct Hext as [Hn Hh]. split; [done |].
    intros l Hl. cbn [heap stored]. rewrite lookup_insert_ne by lia.
    by apply Hh.
  - exists (next s + 9)%nat. split_and!.
    + erewrite bind_done by done.
      erewrite bind_done; [done |].
      by rewrite (convert_dates_run _ _ _ Hu), Hdates.
    + cbn [heap stored]. by rewrite lookup_insert_eq.
    + cbn [next stored]. lia.
Qed.

Lemma load_the_dataset_run s :
  ∃ s', screen s' = screen s
        ∧ match load_result pandas with
          | inl e =>
              load_the_dataset pandas s =
                (drawn [(Page, StError ("Error loading data: " +:+ str e))] s',
                 Stopped)
          | inr df =>
              ∃ u, load_the_dataset pandas s = (s', Done u)
                   ∧ heap s' !! u = Some (Joined df)
                   ∧ (u < next s')%nat
          end.
Proof.
  destruct (loading_run s) as (s' & Hscr & _ & Hrun).
  exists s'. split; [done |]. unfold load_the_dataset, try_except.
  destruct (load_result pandas) as [e | df].
  - by rewrite Hrun.
  - destruct Hrun as (u & Hrun & Hu). exists u. by rewrite Hrun.
Qed.
End Loading.

Section Dashboard.
Variable choice : nat.

Lemma filter_data_run u selected_customer s all_rows :
  heap s !! u = Some (Joined all_rows) →
  ∃ s' fd, filter_data u selected_customer s = (s', Done fd)
           ∧ screen s' = screen s ∧ extends s s'
           ∧ heap s' !! fd = Some (Joined (filtered selected_customer all_rows)).
Proof.
  intros Hu. unfold filter_data, filtered.
  destruct (decide (selected_customer ≠ "All")).
  - rewrite (boolean_index_run _ _ _ _ Hu). eexists _, _.
    split_and!; [done | done | apply extends_allocated |].
    apply lookup_allocated.
  - exists s, u. split_and!; [done | done | apply extends_refl | done].
Qed.

Lemma tab1_run selected_customer fd s rows :
  heap s !! fd = Some (Joined rows) →
  tab1 selected_customer fd s
  = (drawn (tab1_page selected_customer rows) s, Done tt).
Proof.
  intros Hfd. unfold tab1, tab1_page.
  erewrite bind_done by apply st_run.
  run_with joined_at_run.
  repeat case_decide; by rewrite st_run, drawn_drawn.
Qed.

Lemma tab2_run selected_customer u fd s all_rows rows :
  heap s !! u = Some (Joined all_rows) →
  heap s !! fd = Some (Joined rows) →
  tab2 selected_customer u fd s
  = (drawn (tab2_page selected_customer all_rows rows) s, Done tt).
Proof.
  intros Hu Hfd. unfold tab2, tab2_page.
  erewrite bind_done by apply st_run.
  run_with joined_at_run.
  repeat case_decide; try by rewrite st_run, drawn_drawn.
  run_with joined_at_run. by rewrite st_run, drawn_drawn.
Qed.

Lemma tab3_run selected_customer u s all_rows :
  heap s !! u = Some (Joined all_rows) → (u < next s)%nat →
  ∃ s', tab3 selected_customer u s = (s', Done tt)
        ∧ screen s' = screen s ++ tab3_page selected_customer all_rows
        ∧ extends s s'.
Proof.
  intros Hu Hlt. unfold tab3, tab3_page.
  erewrite bind_done by apply st_run.
  case_decide.
  - erewrite bind_done; cycle 1.
    { run_with boolean_index_run. run_with joined_at_run. apply st_run. }
    erewrite bind_done by apply st_run.
    erewrite bind_done; cycle 1.
    { apply joined_at_run. cbn [heap drawn].
      rewrite lookup_allocated_ne by (cbn; lia). done. }
    rewrite st_run. eexists. split_and!; [done | |].
    + cbn. by rewrite <-!app_assoc.
    + split; [cbn; lia |]. intros l Hl. cbn [heap drawn].
      by rewrite lookup_allocated_ne by (cbn; lia).
  - erewrite bind_done by apply st_run.
    erewrite bind_done by apply st_run.
    run_with joined_at_run.
    rewrite st_run. eexists. split_and!; [done | | by split].
    cbn. by rewrite <-!app_assoc.
Qed.
End Dashboard.

Section Page.
Variable choice : nat.

Lemma st_selectbox_run c label options help s :
  st_selectbox choice c label options help s
  = (drawn [(c, Selectbox label options help)] s,
     Done (selected choice options)).
Proof. done. Qed.

(** The dashboard draws [page] and writes to no object. *)
Lemma dashboard_run u s all_rows :
  heap s !! u = Some (Joined all_rows) → (u < next s)%nat →
  ∃ s', dashboard choice u s = (s', Done tt)
        ∧ screen s' = screen s ++ page choice all_rows
        ∧ extends s s'.
Proof.
  intros Hu Hlt. unfold dashboard, page.
  set (sel := selected choice (customer_names all_rows)).
  erewrite bind_done by apply st_run.
  erewrite bind_done by apply st_run.
  run_with joined_at_run.
  erewrite bind_done by apply st_selectbox_run.
  fold sel. rewrite !drawn_drawn.
  match goal with |- context [mbind _ (filter_data u sel) ?s0] =>
    destruct (filter_data_run u sel s0 all_rows)
      as (s1 & fd & Hrun1 & Hscr1 & Hext1 & Hfd); [done |]
  end.
  erewrite bind_done by apply Hrun1.
  erewrite bind_done by apply st_run.
  assert (heap s1 !! u = Some (Joined all_rows)) as Hu1.
  { destruct Hext1 as [_ Hh]. rewrite Hh by (cbn; lia). done. }
  erewrite bind_done by (by apply tab1_run).
  erewrite bind_done by (by apply tab2_run).
  rewrite !drawn_drawn.
  match goal with |- context [mbind _ (tab3 sel u) ?s2] =>
    destruct (tab3_run sel u s2 all_rows)
      as (s3 & Hrun3 & Hscr3 & Hext3);
      [done | destruct Hext1 as [Hn _]; cbn in *; lia |]
  end.
  erewrite bind_done by apply Hrun3.
  erewrite bind_done by apply st_run.
  rewrite st_run, drawn_drawn. eexists. split_and!; [done | |].
  - cbn [screen drawn]. rewrite Hscr3. cbn [screen drawn]. rewrite Hscr1.
    cbn [screen drawn]. by rewrite <-!app_assoc.
  - eapply extends_trans; [| apply extends_drawn].
    eapply extends_trans; [| apply Hext3].
    eapply extends_trans; [| apply extends_drawn].
    eapply extends_trans; [| apply Hext1]. apply extends_drawn.
Qed.
End Page.

Section Main.
Variable pandas : Pandas.
Variable choice : nat.

Lemma page_setup_run s : page_setup s = (drawn page_setup_widgets s, Done tt).
Proof.
  unfold page_setup. erewrite bind_done by apply st_run.
  by rewrite st_run, drawn_drawn.
Qed.

(** The whole run: the page set-up, then either the error message and a
    stop, or the dashboard. *)
Lemma main_run s :
  ∃ s',
    match load_result pandas with
    | inl e =>
        main pandas choice s = (s', Stopped)
        ∧ screen s' =
            screen s ++ page_setup_widgets
            ++ [(Page, StError ("Error loading data: " +:+ str e))]
    | inr df =>
        main pandas choice s = (s', Done tt)
        ∧ screen s' = screen s ++ page_setup_widgets ++ page choice df
    end.
Proof.
  unfold main. erewrite bind_done by apply page_setup_run.
  destruct (load_the_dataset_run pandas (drawn page_setup_widgets s))
    as (s1 & Hscr & Hrun).
  destruct (load_result pandas) as [e | df].
  - eexists. split.
    + unfold mbind, Script_bind. by rewrite Hrun.
    + cbn [screen drawn]. rewrite Hscr. cbn [screen drawn].
      by rewrite <-app_assoc.
  - destruct Hrun as (u & Hrun & Hu & Hlt).
    destruct (dashboard_run choice u s1 df Hu Hlt) as (s2 & Hdash & Hscr2 & _).
    exists s2. split.
    + by erewrite bind_done.
    + rewrite Hscr2, Hscr. cbn [screen drawn]. by rewrite <-app_assoc.
Qed.
End Main.

(** ** Which steps write *)

Create HintDb frame.

Lemma read_only_ret {A} (a : A) : read_only (mret a : Script A).
Proof. intros s. apply extends_refl. Qed.

Lemma read_only_bind {A B} (m : Script A) (f : A → Script B) :
  read_only m → (∀ a, read_only (f a)) → read_only (m ≫= f).
Proof.
  intros Hm Hf s. unfold mbind, Script_bind.
  specialize (Hm s). destruct (m s) as [s1 [a | e |]]; simpl in *; try done.
  eapply extends_trans; [exact Hm | apply Hf].
Qed.

Lemma read_only_st c w : read_only (st c w).
Proof. intros s. apply extends_drawn. Qed.

Lemma read_only_alloc t : read_only (alloc t).
Proof. intros s. apply extends_allocated. Qed.

Lemma read_only_deref l : read_only (deref l).
Proof. intros s. apply extends_refl. Qed.

#[export] Hint Resolve read_only_ret read_only_st read_only_alloc
  read_only_deref : frame.

Ltac frame :=
  repeat first
    [ solve [eauto with frame]
    | apply read_only_bind; [| intros ?]
    | case_decide ].

Lemma read_only_joined_at l : read_only (joined_at l).
Proof. unfold joined_at. frame. Qed.

#[export] Hint Resolve read_only_joined_at : frame.

Lemma read_only_boolean_index l (mask : JoinedRecord → Prop)
    `{∀ r, Decision (mask r)} : read_only (boolean_index l mask).
Proof. unfold boolean_index. frame. Qed.

#[export] Hint Resolve read_only_boolean_index : frame.

Lemma read_only_filter_data u selected_customer :
  read_only (filter_data u selected_customer).
Proof. unfold filter_data. frame. Qed.

Lemma read_only_tab1 selected_customer fd : read_only (tab1 selected_customer fd).
Proof. unfold tab1. frame. Qed.

Lemma read_only_tab2 selected_customer u fd :
  read_only (tab2 selected_customer u fd).
Proof. unfold tab2. frame. Qed.

Lemma read_only_tab3 selected_customer u : read_only (tab3 selected_customer u).
Proof. unfold tab3. frame. Qed.

#[export] Hint Resolve read_only_filter_data read_only_tab1 read_only_tab2
  read_only_tab3 : frame.

Lemma read_only_dashboard choice u : read_only (dashboard choice u).
Proof. unfold dashboard, st_selectbox. frame. Qed.

(** ** Loading fails *)



(** What makes the [try] block raise: a file that cannot be read, or a
    date column of the flagged table that cannot be converted. *)
Lemma load_result_fails pandas e :
  load_result pandas = inl e ↔
  read_files pandas = inl e
  ∨ ∃ SWIFT SWIFT_2 SWIFT_3 WT_KYC,
      read_files pandas = inr (SWIFT, SWIFT_2, SWIFT_3, WT_KYC)
      ∧ with_dates pandas (unusual_wp_increase SWIFT SWIFT_2 SWIFT_3 WT_KYC)
        = inl e.
Proof.
  unfold load_result.
  destruct (read_files pandas) as [e' | [[[S1 S2] S3] K]].
  - split; [intros [= ->]; by left |].
    intros [[= ->] | (? & ? & ? & ? & Heq & _)]; [done | discriminate Heq].
  - split.
    + intros ?. right. by exists S1, S2, S3, K.
    + intros [Heq | (? & ? & ? & ? & Heq & Hdates)]; [discriminate Heq |].
      by simplify_eq.
Qed.

(** ** The selection "All" *)

Lemma page_all choice df :
  selected choice (customer_names df) = "All" →
  page choice df =
    [ (Page, Markdown PAGE_HEADING);
      (Col1, Header "Filters");
      (Col1, Selectbox "Customer Name" (customer_names df) SELECT_HELP);
      (Col2, Tabs ["Histogram"; "Pie Chart"; "Customer Statistics"]);
      (Tab1, Header "Wire Transfer Limits vs Actual Transfers");
      (Tab1, StError HISTOGRAM_NEEDS_CUSTOMER);
      (Tab2, Header "Outgoing Wire Transfer Distribution");
      (Tab2, StError PIE_NEEDS_CUSTOMER);
      (Tab3, Header "Customer Appearance Statistics");
      (Tab3, StInfo COUNT_NEEDS_CUSTOMER);
      (Tab3, Subheader "Descriptive Statistics of Unusual Transactions");
      (Tab3, DescribeTable df);
      (Sidebar, Markdown "---");
      (Sidebar, StInfo SIDEBAR_NOTE) ].
Proof.
  intros Hsel. unfold page, tab1_page, tab2_page, tab3_page, filtered.
  rewrite Hsel. cbn [app].
  repeat case_decide; try done; by destruct_and?.
Qed.

(** C8. With "All" selected the dashboard runs to its end without an
    exception; the histogram tab and the pie-chart tab each show their
    header and a message asking for a customer, no chart is drawn, and the
    statistics tab still shows the table of descriptive statistics of the
    flagged rows. *)
Theorem all_suppresses_charts (choice : nat) (unusual_wp_increase : loc)
    (s : State) (df : DataFrame) :
  heap s !! unusual_wp_increase = Some (Joined df) →
  (unusual_wp_increase < next s)%nat →
  selected choice (customer_names df) = "All" →
  ∃ s', dashboard choice unusual_wp_increase s = (s', Done tt)
        ∧ screen s' =
            screen s ++
            [ (Page, Markdown PAGE_HEADING);
              (Col1, Header "Filters");
              (Col1, Selectbox "Customer Name" (customer_names df) SELECT_HELP);
              (Col2, Tabs ["Histogram"; "Pie Chart"; "Customer Statistics"]);
              (Tab1, Header "Wire Transfer Limits vs Actual Transfers");
              (Tab1, StError HISTOGRAM_NEEDS_CUSTOMER);
              (Tab2, Header "Outgoing Wire Transfer Distribution");
              (Tab2, StError PIE_NEEDS_CUSTOMER);
              (Tab3, Header "Customer Appearance Statistics");
              (Tab3, StInfo COUNT_NEEDS_CUSTOMER);
              (Tab3, Subheader "Descriptive Statistics of Unusual Transactions");
              (Tab3, DescribeTable df);
              (Sidebar, Markdown "---");
              (Sidebar, StInfo SIDEBAR_NOTE) ]
        ∧ ∀ c fig, (c, Pyplot fig) ∈ screen s' → (c, Pyplot fig) ∈ screen s.
Proof.
  intros Hu Hlt Hsel.
  destruct (dashboard_run choice _ s df Hu Hlt) as (s' & Hrun & Hscr & _).
  rewrite (page_all _ _ Hsel) in Hscr.
  exists s'. split_and!; [done | done |].
  intros c fig. rewrite Hscr, elem_of_app.
  intros [? | Hin]; [done |].
  repeat (apply elem_of_cons in Hin as [Hin | Hin]; [by inversion Hin |]).
  by apply elem_of_nil in Hin.
Qed.

(** ** The drop-down *)

Lemma elem_of_unique_acc (x : string) (col seen : list string) :
  x ∈ foldl (λ seen x, if decide (x ∈ seen) then seen else seen ++ [x])
        seen col
  ↔ x ∈ seen ∨ x ∈ col.
Proof.
  revert seen. induction col as [| y col IH]; intros seen; simpl.
  - rewrite elem_of_nil. tauto.
  - rewrite IH, elem_of_cons. case_decide.
    + split; [tauto |]. intros [? | [-> | ?]]; tauto.
    + rewrite elem_of_app, list_elem_of_singleton. tauto.
Qed.

Lemma elem_of_unique (x : string) (col : list string) :
  x ∈ unique col ↔ x ∈ col.
Proof.
  unfold unique. rewrite elem_of_unique_acc, elem_of_nil. tauto.
Qed.




(** ** The divisor of the pie chart *)






(** ** What is written after loading *)

Lemma filter_data_all u s : filter_data u "All" s = (s, Done u).
Proof. done. Qed.

Lemma filter_data_customer u selected_customer s :
  selected_customer ≠ "All" →
  ∃ rows,
    filter_data u selected_customer s
    = (allocated (Joined rows) s, Done (next s)).
Proof.
  intros Hsel. unfold filter_data. rewrite decide_True by done.
  by eexists.
Qed.

(** C9, as the script has it. Once the [try] block is over (load_data and
    the conversion of the date column), nothing writes to an object that
    exists: filtering by customer, the charts and the statistics leave the
    flagged table, and every table made on the way to it, as they are.  The
    view of one customer is a new table; the view for "All" is the flagged
    table itself. *)
Theorem dashboard_writes_nothing (pandas : Pandas) (choice : nat) :
  (∀ u, read_only (dashboard choice u))
  ∧ (∀ s s1 u,
       load_the_dataset pandas (page_setup s).1 = (s1, Done u) →
       ∀ l, (l < next s1)%nat →
            heap (main pandas choice s).1 !! l = heap s1 !! l)
  ∧ (∀ u selected_customer s,
       selected_customer ≠ "All" →
       ∃ rows,
         filter_data u selected_customer s
         = (allocated (Joined rows) s, Done (next s)))
  ∧ (∀ u s, filter_data u "All" s = (s, Done u)).
Proof.
  split_and!.
  - apply read_only_dashboard.
  - intros s s1 u Hload l Hl. unfold main.
    unfold mbind at 1, Script_bind at 1.
    destruct (page_setup s) as [s0 [[] | e |]] eqn:Hsetup;
      simpl in Hload.
    + erewrite bind_done by done.
      by apply (read_only_dashboard choice u s1).
    + rewrite page_setup_run in Hsetup. by simplify_eq.
    + rewrite page_setup_run in Hsetup. by simplify_eq.
  - apply filter_data_customer.
  - apply filter_data_all.
Qed.


(** ** The example files, run *)

Lemma sample_joined :
  Sample.joined
  = [ Sample.acme_6000000; Sample.acme_5000000; Sample.bolt_at_limit;
      Sample.bolt_above_limit; Sample.crux_alone ].
Proof. vm_compute. reflexivity. Qed.

Lemma sample_flagged :
  unusual_wp_increase Sample.SWIFT Sample.SWIFT_2 Sample.SWIFT_3
    Sample.WT_KYC
  = Sample.flagged.
Proof. vm_compute. reflexivity. Qed.

Lemma sample_load_result :
  load_result Sample.pandas = inr Sample.flagged_with_dates.
Proof. vm_compute. reflexivity. Qed.

Lemma sample_missing_file :
  load_result Sample.pandas_missing_file = inl Sample.SWIFT_2_MISSING.
Proof. vm_compute. reflexivity. Qed.

Lemma sample_bad_date :
  load_result Sample.pandas_bad_date
  = inl (ValueError
           "Unknown datetime string format, unable to parse: yesterday").
Proof. vm_compute. reflexivity. Qed.

(** The objects when [load_data] returns: the flagged table is the tenth,
    with its dates as text. *)
Lemma sample_load_data :
  (load_data Sample.pandas (page_setup initial).1).2 = Done 9%nat
  ∧ heap (load_data Sample.pandas (page_setup initial).1).1 !! 9%nat
    = Some (Joined Sample.flagged).
Proof. split; vm_compute; reflexivity. Qed.

(** The same object at the end of the script. *)
Lemma sample_main :
  (main Sample.pandas 0 initial).2 = Done tt
  ∧ heap (main Sample.pandas 0 initial).1 !! 9%nat
    = Some (Joined Sample.flagged_with_dates).
Proof. split; vm_compute; reflexivity. Qed.

(** ** The properties on the example files *)



Lemma left_join_cardinality_witness :
  (3 ≤ length (merge_left Sample.WT_KYC
                 (Sample.SWIFT ++ Sample.SWIFT_2 ++ Sample.SWIFT_3)))%nat
  ∧ ({| kyc := Sample.customer "C3" "Crux" 100; tx := None |}
       ∈ merge_left Sample.WT_KYC
           (Sample.SWIFT ++ Sample.SWIFT_2 ++ Sample.SWIFT_3))
  ∧ length
      (filter (λ r, customer_id (kyc r) = "C1")
         (merge_left Sample.WT_KYC
            (Sample.SWIFT ++ Sample.SWIFT_2 ++ Sample.SWIFT_3)))
    = 2%nat
  ∧ ∀ r, r ∈ merge_left Sample.WT_KYC
               (Sample.SWIFT ++ Sample.SWIFT_2 ++ Sample.SWIFT_3) →
         tx r ≠ Some (Sample.transfer "C9" "Zeta" "2025-01-17" 99).
Proof.
  destruct (left_join_cardinality Sample.WT_KYC
              (Sample.SWIFT ++ Sample.SWIFT_2 ++ Sample.SWIFT_3))
    as (Hlen & _ & Hrows & Hdrop).
  split_and!.
  - exact Hlen.
  - destruct (Hrows (Sample.customer "C3" "Crux" 100)) as (_ & Hnull & _).
    + apply (list_elem_of_lookup_2 _ 2). reflexivity.
    + apply Hnull. vm_compute. reflexivity.
  - destruct (Hrows (Sample.customer "C1" "Acme" 500)) as (_ & _ & Hcount).
    + apply (list_elem_of_lookup_2 _ 0). reflexivity.
    + assert (NoDup (customer_id <$> Sample.WT_KYC)) as Hnd
        by (apply (bool_decide_unpack _); vm_compute; exact I).
      destruct (Hcount Hnd) as (_ & _ & Hmatched).
      destruct Hmatched as [_ Hn]; [by vm_compute |]. exact Hn.
  - apply Hdrop.
    + apply (list_elem_of_lookup_2 _ 3). reflexivity.
    + intros k Hk.
      repeat (apply elem_of_cons in Hk as [-> | Hk]; [by vm_compute |]).
      by apply elem_of_nil in Hk.
Defined.


(** The state of the example when the [try] block is over: the flagged
    table is the tenth object. *)
Lemma sample_loaded :
  heap (loading Sample.pandas (page_setup initial).1).1 !! 9%nat
  = Some (Joined Sample.flagged_with_dates)
  ∧ (9 < next (loading Sample.pandas (page_setup initial).1).1)%nat.
Proof. split; vm_compute; [reflexivity | lia]. Qed.

Lemma all_suppresses_charts_witness :
  ∃ s', dashboard 0 9%nat (loading Sample.pandas (page_setup initial).1).1
        = (s', Done tt)
        ∧ (Tab1, StError HISTOGRAM_NEEDS_CUSTOMER) ∈ screen s'
        ∧ (Tab2, StError PIE_NEEDS_CUSTOMER) ∈ screen s'
        ∧ (Tab3, DescribeTable Sample.flagged_with_dates) ∈ screen s'.
Proof.
  destruct (all_suppresses_charts 0 9%nat
              (loading Sample.pandas (page_setup initial).1).1
              Sample.flagged_with_dates)
    as (s' & Hrun & Hscr & _).
  - vm_compute. reflexivity.
  - vm_compute. lia.
  - vm_compute. reflexivity.
  - exists s'. rewrite Hscr. split_and!; [exact Hrun | | |].
    + apply (list_elem_of_lookup_2 _ 7). reflexivity.
    + apply (list_elem_of_lookup_2 _ 9). reflexivity.
    + apply (list_elem_of_lookup_2 _ 13). reflexivity.
Defined.

Lemma dashboard_writes_nothing_witness :
  heap (main Sample.pandas 1 initial).1 !! 9%nat
  = heap (load_the_dataset Sample.pandas (page_setup initial).1).1 !! 9%nat.
Proof.
  destruct (dashboard_writes_nothing Sample.pandas 1) as (_ & Hkept & _).
  apply (Hkept initial _ 9%nat).
  - vm_compute. reflexivity.
  - vm_compute. lia.
Defined.


(** C9 as stated does not hold. On the example files the flagged table that
    [load_data] returned has its dates as text, and at the end of the script
    the same object has timestamps; and with "All" selected [filtered_data]
    is the flagged table itself. *)
Lemma date_conversion_rewrites_flagged_table :
  ¬ unchanged_since_load_data Sample.pandas 0 initial
  ∧ ¬ fresh_view 9%nat "All"
        (loading Sample.pandas (page_setup initial).1).1.
Proof.
  split.
  - intros Hsame.
    specialize
      (Hsame (load_data Sample.pandas (page_setup initial).1).1 9%nat).
    assert (heap (main Sample.pandas 0 initial).1 !! 9%nat
            = heap (load_data Sample.pandas (page_setup initial).1).1
                !! 9%nat) as Heq.
    { apply Hsame; [vm_compute; reflexivity | vm_compute; lia]. }
    vm_compute in Heq. discriminate Heq.
  - intros Hfresh. by apply Hfresh.
Qed.

(** * Further properties of the script *)

(** ** The flagged table, row by row and in order *)

Lemma elem_of_flag_merge_left left right r :
  r ∈ flag (merge_left left right) ↔
  ∃ k t a l, k ∈ left ∧ t ∈ right
             ∧ tx_customer_id t = customer_id k
             ∧ r = {| kyc := k; tx := Some t |}
             ∧ amount t = Some a ∧ limit k = Some l ∧ l < a.
Proof.
  unfold flag. rewrite list_elem_of_filter, exceeds_limit_spec,
    elem_of_merge_left. split.
  - intros [(a & l & Ha & Hl & Hlt) (k & Hk & Hr)].
    apply elem_of_merge_row in Hr as [[_ ->] | (t & Ht & Hid & ->)];
      [done |].
    exists k, t, a, l. by split_and!.
  - intros (k & t & a & l & Hk & Ht & Hid & -> & Ha & Hl & Hlt). split.
    + by exists a, l.
    + exists k. split; [done |]. apply elem_of_merge_row. right. by exists t.
Qed.

Lemma flagged_iff_rows (SWIFT SWIFT_2 SWIFT_3 : list TransactionRecord)
    (WT_KYC : list CustomerLimitRecord) (r : JoinedRecord) :
  r ∈ unusual_wp_increase SWIFT SWIFT_2 SWIFT_3 WT_KYC ↔
  ∃ k t a l,
    k ∈ WT_KYC ∧ t ∈ SWIFT ++ SWIFT_2 ++ SWIFT_3
    ∧ tx_customer_id t = customer_id k
    ∧ r = {| kyc := correct_record k; tx := Some t |}
    ∧ amount t = Some a ∧ correct_limit (limit k) = Some l ∧ l < a.
Proof.
  unfold unusual_wp_increase, merge_tables, WT_KYC_2.
  rewrite SWIFT_MERGE_2_app, elem_of_flag_merge_left. split.
  - intros (k' & t & a & l & Hk & Ht & Hid & -> & Ha & Hl & Hlt).
    apply list_elem_of_fmap in Hk as (k & -> & Hk).
    exists k, t, a, l. by split_and!.
  - intros (k & t & a & l & Hk & Ht & Hid & -> & Ha & Hl & Hlt).
    exists (correct_record k), t, a, l. split_and!; try done.
    by apply list_elem_of_fmap_2.
Qed.


(** X2. The rows of the flagged table come in the order of the KYC file,
    and for one limit record in the order of the transactions: batch 1,
    then batch 2, then batch 3. *)
Theorem flagged_in_file_order (SWIFT SWIFT_2 SWIFT_3 : list TransactionRecord)
    (WT_KYC : list CustomerLimitRecord) :
  unusual_wp_increase SWIFT SWIFT_2 SWIFT_3 WT_KYC =
    WT_KYC ≫= λ k,
      flagged_of SWIFT (correct_record k)
      ++ flagged_of SWIFT_2 (correct_record k)
      ++ flagged_of SWIFT_3 (correct_record k).
Proof.
  unfold unusual_wp_increase, merge_tables, WT_KYC_2.
  rewrite SWIFT_MERGE_2_app, flag_merge_left, list_fmap_bind.
  apply list_bind_ext; [| done].
  intros k. simpl. by rewrite !flagged_of_app.
Qed.

(** ** The correction and the join *)

Lemma matching_correct_record k txs :
  matching (correct_record k) txs = matching k txs.
Proof. done. Qed.

Lemma merge_row_correct_record txs k :
  merge_row txs (correct_record k) =
    (λ r, {| kyc := correct_record (kyc r); tx := tx r |}) <$> merge_row txs k.
Proof.
  unfold merge_row. rewrite matching_correct_record.
  destruct (matching k txs) as [| t ms]; [done |].
  by rewrite <-list_fmap_compose.
Qed.

Lemma merge_left_correct left right :
  merge_left (WT_KYC_2 left) right =
    (λ r, {| kyc := correct_record (kyc r); tx := tx r |})
      <$> merge_left left right.
Proof.
  unfold WT_KYC_2. induction left as [| k left IH]; [done |].
  rewrite fmap_cons, !merge_left_cons, fmap_app, IH.
  by rewrite merge_row_correct_record.
Qed.

(** X3. Correcting the limits before the join gives the table that joining
    first and correcting the limit column of the joined table would give:
    the correction changes no customer identifier, so the same transactions
    meet the same limit records. *)
Theorem correction_commutes_with_join
    (SWIFT SWIFT_2 SWIFT_3 : list TransactionRecord)
    (WT_KYC : list CustomerLimitRecord) :
  merge_tables SWIFT SWIFT_2 SWIFT_3 WT_KYC =
    (λ r, {| kyc := correct_record (kyc r); tx := tx r |})
      <$> merge_left WT_KYC (SWIFT_MERGE_2 SWIFT SWIFT_2 SWIFT_3)
  ∧ length (merge_tables SWIFT SWIFT_2 SWIFT_3 WT_KYC)
    = length (merge_left WT_KYC (SWIFT_MERGE_2 SWIFT SWIFT_2 SWIFT_3)).
Proof.
  unfold merge_tables. rewrite merge_left_correct, length_fmap. done.
Qed.





(** ** The size of the joined table *)

Lemma length_filter_or {A} (P Q : A → Prop)
    `{∀ x, Decision (P x)} `{∀ x, Decision (Q x)} (l : list A) :
  (∀ x, x ∈ l → P x → Q x → False) →
  length (filter (λ x, P x ∨ Q x) l)
  = (length (filter P l) + length (filter Q l))%nat.
Proof.
  induction l as [| x l IH]; intros Hdisj; [done |].
  assert (length (filter (λ x, P x ∨ Q x) l)
          = (length (filter P l) + length (filter Q l))%nat) as IH'.
  { apply IH. intros y Hy. apply Hdisj. by right. }
  specialize (Hdisj x (list_elem_of_here _ _)).
  rewrite !filter_cons.
  destruct (decide (P x)), (decide (Q x)); try tauto.
  - rewrite decide_True by tauto. simpl. lia.
  - rewrite decide_True by tauto. simpl. lia.
  - rewrite decide_False by tauto. done.
Qed.

Lemma matched_count left right :
  NoDup (customer_id <$> left) →
  sum_list ((λ k, length (matching k right)) <$> left)
  = length (filter (λ t, tx_customer_id t ∈ customer_id <$> left) right).
Proof.
  induction left as [| k left IH]; intros Hnd.
  { simpl. rewrite filter_none; [done |]. intros t _. apply not_elem_of_nil. }
  rewrite fmap_cons in Hnd. apply NoDup_cons in Hnd as [Hk Hnd].
  rewrite !fmap_cons. cbn [sum_list sum_list_with]. unfold id at 1.
  change (sum_list_with id ?l) with (sum_list l). rewrite IH by done.
  rewrite (list_filter_iff
             (λ t, tx_customer_id t ∈ customer_id k :: (customer_id <$> left))
             (λ t, tx_customer_id t = customer_id k
                   ∨ tx_customer_id t ∈ customer_id <$> left)).
  - rewrite length_filter_or; [done |].
    intros t _ Heq Hin. apply Hk. by rewrite <-Heq.
  - intros t. by rewrite elem_of_cons.
Qed.

Lemma unmatched_count left right :
  sum_list ((λ k, if decide (matching k right = []) then 1 else 0)%nat <$> left)
  = length (filter (λ k, matching k right = []) left).
Proof.
  induction left as [| k left IH]; [done |].
  rewrite fmap_cons, filter_cons. cbn [sum_list sum_list_with]. unfold id at 1.
  change (sum_list_with id ?l) with (sum_list l). rewrite IH.
  by destruct (decide (matching k right = [])).
Qed.

Lemma length_merge_left_split left right :
  length (merge_left left right)
  = (sum_list ((λ k, length (matching k right)) <$> left)
     + sum_list
         ((λ k, if decide (matching k right = []) then 1 else 0)%nat
            <$> left))%nat.
Proof.
  induction left as [| k left IH]; [done |].
  rewrite merge_left_cons, length_app, length_merge_row, IH, !fmap_cons.
  cbn [sum_list sum_list_with]. unfold id.
  destruct (decide (matching k right = [])) as [-> | Hne].
  - simpl. lia.
  - destruct (matching k right); [done |]. simpl. lia.
Qed.

(** X5. When the customer identifiers of the limit table are distinct, the
    joined table has one row for each transaction whose customer is in the
    limit table, and one more for each limit record without a
    transaction. *)
Theorem join_row_count
    (left : list CustomerLimitRecord) (right : list TransactionRecord) :
  NoDup (customer_id <$> left) →
  length (merge_left left right)
  = (length (filter (λ t, tx_customer_id t ∈ customer_id <$> left) right)
     + length (filter (λ k, matching k right = []) left))%nat.
Proof.
  intros Hnd.
  by rewrite length_merge_left_split, matched_count, unmatched_count.
Qed.

(** X6. Without transactions the joined table is the corrected limit table
    with empty transaction columns and nothing is flagged; without limit
    records the joined table is empty, whatever the transactions. *)
Theorem empty_inputs :
  (∀ WT_KYC,
     merge_tables [] [] [] WT_KYC
     = (λ k, {| kyc := correct_record k; tx := None |}) <$> WT_KYC
     ∧ unusual_wp_increase [] [] [] WT_KYC = [])
  ∧ (∀ SWIFT SWIFT_2 SWIFT_3,
       merge_tables SWIFT SWIFT_2 SWIFT_3 [] = []
       ∧ unusual_wp_increase SWIFT SWIFT_2 SWIFT_3 [] = []).
Proof.
  split; [| done]. intros K.
  assert (merge_tables [] [] [] K
          = (λ k, {| kyc := correct_record k; tx := None |}) <$> K) as Hm.
  { unfold merge_tables, WT_KYC_2. induction K as [| k K IH]; [done |].
    rewrite !fmap_cons, merge_left_cons, IH. done. }
  split; [done |]. unfold unusual_wp_increase, flag. rewrite Hm.
  apply filter_none. intros r Hr.
  apply list_elem_of_fmap in Hr as (k & -> & _). by intros ?.
Qed.

(** ** The entries of the drop-down *)

Global Instance leb_Total : Total (λ a b : string, Is_true (String.leb a b)).
Proof.
  intros a b. destruct (String.leb_total a b) as [H | H];
    [left | right]; by apply Is_true_true.
Qed.

Lemma NoDup_unique_acc (col seen : list string) :
  NoDup seen →
  NoDup (foldl (λ seen x, if decide (x ∈ seen) then seen else seen ++ [x])
           seen col).
Proof.
  revert seen. induction col as [| x col IH]; intros seen Hnd; [done |].
  simpl. apply IH. case_decide; [done |].
  apply NoDup_app. split_and!; [done | | apply NoDup_singleton].
  intros y Hy Hy'. apply list_elem_of_singleton in Hy' as ->. done.
Qed.

(** X7. The drop-down offers "All" first and then the customer names of the
    flagged rows, each once, in lexicographic order; a row without a name
    adds no entry. *)
Theorem customer_names_sorted_distinct (df : DataFrame) :
  ∃ names,
    customer_names df = "All" :: names
    ∧ NoDup names
    ∧ Sorted (λ a b : string, Is_true (String.leb a b)) names
    ∧ ∀ name, name ∈ names ↔ ∃ r, r ∈ df ∧ customer_name_y r = Some name.
Proof.
  eexists. split; [reflexivity |]. unfold sorted. split_and!.
  - rewrite merge_sort_Permutation. apply NoDup_unique_acc, NoDup_nil_2.
  - apply (Sorted_merge_sort _).
  - intros name. unfold dropna.
    rewrite merge_sort_Permutation, elem_of_unique, list_elem_of_omap. split.
    + intros (o & Ho & Hid). unfold id in Hid. subst o.
      apply list_elem_of_fmap in Ho as (r & Hr & ?). by exists r.
    + intros (r & Hr & Hname). exists (Some name). split; [| done].
      apply list_elem_of_fmap. by exists r.
Qed.

(** ** The objects of [load_data] *)

(** X8. When the four files are read, [load_data] makes ten tables and
    returns the last.  The tables read from the files are still as read
    when it returns: the assignment of the corrected limit column is made
    on the copy of the limit table, not on the table read from the KYC
    file, and the concatenations, the joined table and the flagged table
    are tables of their own. *)
Theorem load_data_objects (pandas : Pandas) (s : State)
    (SWIFT SWIFT_2 SWIFT_3 : list TransactionRecord)
    (WT_KYC : list CustomerLimitRecord) :
  read_files pandas = inr (SWIFT, SWIFT_2, SWIFT_3, WT_KYC) →
  ∃ s', load_data pandas s = (s', Done (next s + 9)%nat)
    ∧ next s' = (next s + 10)%nat
    ∧ heap s' !! next s = Some (Transactions SWIFT)
    ∧ heap s' !! (next s + 1)%nat = Some (Transactions SWIFT_2)
    ∧ heap s' !! (next s + 2)%nat = Some (Transactions SWIFT_3)
    ∧ heap s' !! (next s + 3)%nat = Some (Transactions (SWIFT ++ SWIFT_2))
    ∧ heap s' !! (next s + 4)%nat
      = Some (Transactions (SWIFT ++ SWIFT_2 ++ SWIFT_3))
    ∧ heap s' !! (next s + 5)%nat = Some (Limits WT_KYC)
    ∧ heap s' !! (next s + 6)%nat = Some (Limits (WT_KYC_2 WT_KYC))
    ∧ heap s' !! (next s + 7)%nat
      = Some (Joined (merge_tables SWIFT SWIFT_2 SWIFT_3 WT_KYC))
    ∧ heap s' !! (next s + 8)%nat
      = Some (Joined (unusual_wp_increase SWIFT SWIFT_2 SWIFT_3 WT_KYC))
    ∧ heap s' !! (next s + 9)%nat
      = Some (Joined (unusual_wp_increase SWIFT SWIFT_2 SWIFT_3 WT_KYC)).
Proof.
  unfold read_files.
  destruct (read_swift pandas "SWIFT_csv_20250924_a62566.txt")
    as [| S1] eqn:H1; [done |].
  destruct (read_swift pandas "SWIFT_csv_2.txt") as [| S2] eqn:H2; [done |].
  destruct (read_swift pandas "SWIFT_csv_3.txt") as [| S3] eqn:H3; [done |].
  destruct (read_kyc pandas "Wire Transfer KYC.txt") as [| K] eqn:H4;
    [done |].
  intros [= <- <- <- <-]. unfold load_data.
  run_with pd_read_csv_swift_run.
  run_with pd_read_csv_swift_run.
  run_with pd_read_csv_swift_run.
  run_with pd_concat_run.
  run_with pd_concat_run.
  run_with pd_read_csv_kyc_run.
  run_with copy_run.
  run_with limits_at_run.
  run_with store_run.
  run_with limits_at_run.
  run_with transactions_at_run.
  run_with alloc_run.
  run_with boolean_index_run.
  run_with copy_run.
  assert (∀ (A : Type) (a b c : list A),
            concat [concat [a; b]; c] = a ++ b ++ c) as Hcat.
  { intros A a b c. unfold concat. simpl. by rewrite !app_nil_r, <-app_assoc. }
  assert (∀ (A : Type) (a b : list A), concat [a; b] = a ++ b) as Hcat2.
  { intros A a b. unfold concat. simpl. by rewrite app_nil_r. }
  eexists. split; [unfold mret, Script_ret; do 2 f_equal; cbn; lia |].
  split; [cbn; lia |].
  cbn [heap allocated next stored].
  replace (next s + 1)%nat with (S (next s)) by lia.
  replace (next s + 2)%nat with (S (S (next s))) by lia.
  replace (next s + 3)%nat with (S (S (S (next s)))) by lia.
  replace (next s + 4)%nat with (S (S (S (S (next s))))) by lia.
  replace (next s + 5)%nat with (S (S (S (S (S (next s)))))) by lia.
  replace (next s + 6)%nat with (S (S (S (S (S (S (next s))))))) by lia.
  replace (next s + 7)%nat with (S (S (S (S (S (S (S (next s)))))))) by lia.
  replace (next s + 8)%nat
    with (S (S (S (S (S (S (S (S (next s))))))))) by lia.
  replace (next s + 9)%nat
    with (S (S (S (S (S (S (S (S (S (next s)))))))))) by lia.
  split_and!;
    repeat rewrite lookup_insert_ne by lia;
    rewrite lookup_insert_eq; try done.
  - by rewrite Hcat2.
  - by rewrite Hcat.
Qed.

(** ** The [try] block *)

(** X9. Whatever the files hold, the [try] block draws nothing, writes to
    no object that existed before it, and either returns or raises: it
    never stops the script by itself. *)
Theorem loading_draws_nothing (pandas : Pandas) (s : State) :
  screen (loading pandas s).1 = screen s
  ∧ extends s (loading pandas s).1
  ∧ (loading pandas s).2 ≠ Stopped.
Proof.
  destruct (loading_run pandas s) as (s' & Hscr & Hext & Hrun).
  destruct (load_result pandas) as [e | df].
  - by rewrite Hrun.
  - destruct Hrun as (u & -> & _). done.
Qed.

Lemma set_date_columns (r : JoinedRecord) (d : DateCell) :
  kyc (set_date r d) = kyc r
  ∧ outgoing_wire_transfer_amount (set_date r d)
    = outgoing_wire_transfer_amount r
  ∧ customer_name_y (set_date r d) = customer_name_y r
  ∧ (tx_customer_id <$> tx (set_date r d)) = (tx_customer_id <$> tx r)
  ∧ (tx_other <$> tx (set_date r d)) = (tx_other <$> tx r).
Proof.
  unfold set_date, outgoing_wire_transfer_amount, customer_name_y.
  by destruct r as [k [t |]].
Qed.

Lemma with_dates_rows (pandas : Pandas) (df df' : DataFrame) :
  with_dates pandas df = inr df' →
  length df' = length df
  ∧ ∀ i r', df' !! i = Some r' → ∃ r d, df !! i = Some r ∧ r' = set_date r d.
Proof.
  unfold with_dates.
  destruct (to_datetime pandas (date_col <$> df)) as [e | dates]; [done |].
  case_decide as Hlen; [| done]. intros [= <-]. split.
  - by rewrite length_zip_with_l_eq.
  - intros i r' Hi. apply lookup_zip_with_Some in Hi as (r & d & -> & Hr & _).
    by exists r, d.
Qed.

Lemma elem_of_with_dates (pandas : Pandas) (df df' : DataFrame) r' :
  with_dates pandas df = inr df' → r' ∈ df' →
  ∃ r d, r ∈ df ∧ r' = set_date r d.
Proof.
  intros Hdates Hr'. apply list_elem_of_lookup_1 in Hr' as (i & Hi).
  destruct (with_dates_rows _ _ _ Hdates) as [_ Hrows].
  destruct (Hrows i r' Hi) as (r & d & Hr & ->).
  exists r, d. split; [| done]. by eapply list_elem_of_lookup_2.
Qed.

(** X10. When the [try] block returns, the table it returns pairs, in every
    row, a limit record with a transaction of the same customer whose
    amount is strictly above the limit; no row lacks a transaction, an
    amount or a limit, and no limit is the placeholder 500. *)
Theorem loaded_rows_exceed (pandas : Pandas) (s s1 : State) (u : loc) :
  loading pandas s = (s1, Done u) →
  ∃ df, heap s1 !! u = Some (Joined df) ∧ (u < next s1)%nat
        ∧ ∀ r, r ∈ df →
            ∃ t a l, tx r = Some t
                     ∧ tx_customer_id t = customer_id (kyc r)
                     ∧ amount t = Some a ∧ limit (kyc r) = Some l
                     ∧ l < a ∧ ¬ l == 500.
Proof.
  intros Hdone.
  destruct (loading_run pandas s) as (s' & _ & _ & Hrun).
  unfold load_result in Hrun.
  destruct (read_files pandas) as [e | [[[S1 S2] S3] K]].
  { rewrite Hrun in Hdone. by simplify_eq. }
  destruct (with_dates pandas (unusual_wp_increase S1 S2 S3 K))
    as [e | df] eqn:Hdates.
  { rewrite Hrun in Hdone. by simplify_eq. }
  destruct Hrun as (u' & Hrun & Hu & Hlt).
  rewrite Hrun in Hdone. simplify_eq.
  exists df. split_and!; [done | done |].
  intros r' Hr'.
  destruct (elem_of_with_dates _ _ _ _ Hdates Hr') as (r & d & Hr & ->).
  apply flagged_iff_rows in Hr
    as (k & t & a & l & Hk & Ht & Hid & -> & Ha & Hl & Hlt').
  eexists _, a, l. unfold set_date. simpl. split_and!; try done.
  destruct (limit k) as [q |]; [| done].
  destruct (Qeq_dec q 500) as [Hq | Hq].
  - rewrite (correct_limit_sentinel q Hq) in Hl. simplify_eq.
    by apply corrected_is_not_sentinel.
  - rewrite (correct_limit_other q Hq) in Hl. by simplify_eq.
Qed.

(** ** The conversion of the dates *)

Lemma fmap_set_dates {A} (col : JoinedRecord → A) (df : DataFrame)
    (dates : list DateCell) :
  (∀ r d, col (set_date r d) = col r) →
  length dates = length df →
  col <$> zip_with set_date df dates = col <$> df.
Proof.
  intros Hcol. revert dates.
  induction df as [| r df IH]; intros [| d dates] Hlen; try done.
  simpl. rewrite Hcol, IH; [done |]. simpl in Hlen. lia.
Qed.

Lemma col_sum_fmap (col : JoinedRecord → option Q) (df df' : DataFrame) :
  col <$> df' = col <$> df → col_sum col df' = col_sum col df.
Proof.
  revert df'. induction df as [| r df IH]; intros [| r' df'] Heq; try done.
  rewrite !fmap_cons in Heq. injection Heq as Hr Hdf.
  simpl. by rewrite Hr, (IH df' Hdf).
Qed.

(** X11. The assignment of line 57 changes the date column of the flagged
    table and nothing else: the table keeps its address, its number of
    rows, and in every row the limit record, the amount and the customer
    name, so the drop-down and the sums are those of the table as loaded;
    no other object changes and nothing is drawn.  When [pd.to_datetime]
    raises, the table is left as it was. *)
Theorem conversion_changes_dates_only (pandas : Pandas) (u : loc) (s : State)
    (df : DataFrame) :
  heap s !! u = Some (Joined df) →
  (∀ s' e, convert_dates pandas u s = (s', Raised e) → s' = s)
  ∧ (∀ s', convert_dates pandas u s = (s', Done tt) →
       ∃ df', heap s' !! u = Some (Joined df')
              ∧ (∀ l, l ≠ u → heap s' !! l = heap s !! l)
              ∧ next s' = next s ∧ screen s' = screen s
              ∧ length df' = length df
              ∧ (∀ i r', df' !! i = Some r' →
                   ∃ r d, df !! i = Some r ∧ r' = set_date r d)
              ∧ kyc <$> df' = kyc <$> df
              ∧ outgoing_wire_transfer_amount <$> df'
                = outgoing_wire_transfer_amount <$> df
              ∧ customer_names df' = customer_names df).
Proof.
  intros Hu. rewrite (convert_dates_run pandas u s df Hu).
  destruct (with_dates pandas df) as [e | df'] eqn:Hdates.
  { split; [by intros s' e' [= <- _] | by intros s' [=]]. }
  split; [by intros s' e' [=] |]. intros s' [= <-].
  destruct (with_dates_rows _ _ _ Hdates) as [Hlen Hrows].
  exists df'. split_and!; try done.
  - cbn [heap stored]. apply lookup_insert_eq.
  - intros l Hl. cbn [heap stored]. by apply lookup_insert_ne.
  - unfold with_dates in Hdates.
    destruct (to_datetime pandas (date_col <$> df)); [done |].
    case_decide; [| done]. simplify_eq.
    apply fmap_set_dates; [| done]. intros r d. apply set_date_columns.
  - unfold with_dates in Hdates.
    destruct (to_datetime pandas (date_col <$> df)); [done |].
    case_decide; [| done]. simplify_eq.
    apply fmap_set_dates; [| done]. intros r d. apply set_date_columns.
  - unfold with_dates in Hdates.
    destruct (to_datetime pandas (date_col <$> df)); [done |].
    case_decide; [| done]. simplify_eq.
    unfold customer_names. do 4 f_equal.
    apply fmap_set_dates; [| done]. intros r d. apply set_date_columns.
Qed.

(** ** Nothing to report *)

Lemma selected_only_all (choice : nat) : selected choice ["All"] = "All".
Proof. by destruct choice as [| []]. Qed.

(** X12. When the files are read and no transfer exceeds its limit, the
    script ends normally whatever entry is picked: the drop-down offers
    "All" alone, both chart tabs show their message, no chart is drawn and
    the statistics are those of the empty table. *)
Theorem nothing_flagged_page (pandas : Pandas) (choice : nat) (s : State)
    (SWIFT SWIFT_2 SWIFT_3 : list TransactionRecord)
    (WT_KYC : list CustomerLimitRecord) :
  read_files pandas = inr (SWIFT, SWIFT_2, SWIFT_3, WT_KYC) →
  unusual_wp_increase SWIFT SWIFT_2 SWIFT_3 WT_KYC = [] →
  to_datetime pandas [] = inr [] →
  ∃ s', main pandas choice s = (s', Done tt)
        ∧ screen s' =
            screen s ++ page_setup_widgets ++
            [ (Page, Markdown PAGE_HEADING);
              (Col1, Header "Filters");
              (Col1, Selectbox "Customer Name" ["All"] SELECT_HELP);
              (Col2, Tabs ["Histogram"; "Pie Chart"; "Customer Statistics"]);
              (Tab1, Header "Wire Transfer Limits vs Actual Transfers");
              (Tab1, StError HISTOGRAM_NEEDS_CUSTOMER);
              (Tab2, Header "Outgoing Wire Transfer Distribution");
              (Tab2, StError PIE_NEEDS_CUSTOMER);
              (Tab3, Header "Customer Appearance Statistics");
              (Tab3, StInfo COUNT_NEEDS_CUSTOMER);
              (Tab3, Subheader "Descriptive Statistics of Unusual Transactions");
              (Tab3, DescribeTable []);
              (Sidebar, Markdown "---");
              (Sidebar, StInfo SIDEBAR_NOTE) ].
Proof.
  intros Hread Hnone Hdates.
  assert (load_result pandas = inr []) as Hload.
  { unfold load_result, with_dates. rewrite Hread, Hnone. simpl.
    by rewrite Hdates. }
  destruct (main_run pandas choice s) as (s' & Hmain).
  rewrite Hload in Hmain. destruct Hmain as [Hmain Hscr].
  exists s'. split; [done |]. rewrite Hscr.
  by rewrite (page_all choice [] (selected_only_all choice)).
Qed.

(** ** The page of one customer *)




(** ** The bars and the slices *)






(** ** The further properties on the example files *)


Lemma join_row_count_witness :
  length (merge_left Sample.WT_KYC
            (Sample.SWIFT ++ Sample.SWIFT_2 ++ Sample.SWIFT_3))
  = (length
       (filter (λ t, tx_customer_id t ∈ customer_id <$> Sample.WT_KYC)
          (Sample.SWIFT ++ Sample.SWIFT_2 ++ Sample.SWIFT_3))
     + length
         (filter
            (λ k, matching k
                    (Sample.SWIFT ++ Sample.SWIFT_2 ++ Sample.SWIFT_3) = [])
            Sample.WT_KYC))%nat.
Proof.
  apply (join_row_count Sample.WT_KYC
           (Sample.SWIFT ++ Sample.SWIFT_2 ++ Sample.SWIFT_3)).
  apply (bool_decide_unpack _). vm_compute. exact I.
Defined.

Lemma load_data_objects_witness :
  heap (load_data Sample.pandas initial).1 !! 5%nat
  = Some (Limits Sample.WT_KYC)
  ∧ heap (load_data Sample.pandas initial).1 !! 6%nat
    = Some (Limits (WT_KYC_2 Sample.WT_KYC)).
Proof.
  destruct (load_data_objects Sample.pandas initial Sample.SWIFT
              Sample.SWIFT_2 Sample.SWIFT_3 Sample.WT_KYC)
    as (s' & Hrun & _ & _ & _ & _ & _ & _ & Hread & Hcopy & _).
  - vm_compute. reflexivity.
  - rewrite Hrun. split; [exact Hread | exact Hcopy].
Defined.

Lemma loaded_rows_exceed_witness :
  ∃ df, heap (loading Sample.pandas initial).1 !! 9%nat = Some (Joined df)
        ∧ (9 < next (loading Sample.pandas initial).1)%nat
        ∧ ∀ r, r ∈ df →
            ∃ t a l, tx r = Some t
                     ∧ tx_customer_id t = customer_id (kyc r)
                     ∧ amount t = Some a ∧ limit (kyc r) = Some l
                     ∧ l < a ∧ ¬ l == 500.
Proof.
  apply (loaded_rows_exceed Sample.pandas initial).
  vm_compute. reflexivity.
Defined.

Lemma conversion_changes_dates_only_witness :
  ∃ df', heap (convert_dates Sample.pandas 9%nat
                 (load_data Sample.pandas initial).1).1 !! 9%nat
         = Some (Joined df')
         ∧ length df' = length Sample.flagged
         ∧ kyc <$> df' = kyc <$> Sample.flagged
         ∧ customer_names df' = customer_names Sample.flagged.
Proof.
  destruct (conversion_changes_dates_only Sample.pandas 9%nat
              (load_data Sample.pandas initial).1 Sample.flagged)
    as [_ Hdone].
  - vm_compute. reflexivity.
  - destruct (Hdone (convert_dates Sample.pandas 9%nat
                       (load_data Sample.pandas initial).1).1)
      as (df' & Hu & _ & _ & _ & Hlen & _ & Hkyc & _ & Hnames).
    + vm_compute. reflexivity.
    + exists df'. split_and!; [exact Hu | exact Hlen | exact Hkyc |
                               exact Hnames].
Defined.

Lemma nothing_flagged_page_witness :
  ∃ s', main Sample.pandas_quiet 0 initial = (s', Done tt)
        ∧ screen s' =
            screen initial ++ page_setup_widgets ++
            [ (Page, Markdown PAGE_HEADING);
              (Col1, Header "Filters");
              (Col1, Selectbox "Customer Name" ["All"] SELECT_HELP);
              (Col2, Tabs ["Histogram"; "Pie Chart"; "Customer Statistics"]);
              (Tab1, Header "Wire Transfer Limits vs Actual Transfers");
              (Tab1, StError HISTOGRAM_NEEDS_CUSTOMER);
              (Tab2, Header "Outgoing Wire Transfer Distribution");
              (Tab2, StError PIE_NEEDS_CUSTOMER);
              (Tab3, Header "Customer Appearance Statistics");
              (Tab3, StInfo COUNT_NEEDS_CUSTOMER);
              (Tab3, Subheader "Descriptive Statistics of Unusual Transactions");
              (Tab3, DescribeTable []);
              (Sidebar, Markdown "---");
              (Sidebar, StInfo SIDEBAR_NOTE) ].
Proof.
  apply (nothing_flagged_page Sample.pandas_quiet 0 initial Sample.SWIFT
           Sample.SWIFT_2 Sample.SWIFT_3 Sample.WT_KYC_HIGH).
  - vm_compute. reflexivity.
  - vm_compute. reflexivity.
  - reflexivity.
Defined.




